(** * SudokuGrid: the puzzle-state engine of [src/components/SudokuGrid.tsx]

    A shallow embedding of the logic of the React component: the three
    static puzzles, [isValidMove], [isSolved], and the click handler
    [handleCellClick], followed by the properties of the specification
    that concern them.

    Modelling choices.
    - A JavaScript array of numbers or booleans is a list of optional
      values: [None] is a hole, which reads as [undefined].  An indexed
      write past the end extends the array with holes, as JavaScript does.
    - Reading [a[i][j]] when [a[i]] is [undefined] raises a TypeError;
      functions that can raise return a [result].
    - Row and column indices are naturals (they are produced by
      [Array.prototype.map] in the renderer); cell values are integers.
    - The handler runs against the last rendered state and schedules state
      updates; it is written in a small monad over the pending state and
      the list of signals sent to the outside (callbacks and toasts). *)

From Stdlib Require Import String DecimalString.
From Stdlib Require Import List ZArith Lia Bool Arith Permutation.
Import ListNotations.

(** ** JavaScript values and arrays *)

Inductive result (A : Type) : Type :=
| Done (a : A)
| TypeError.
Arguments Done {A} a.
Arguments TypeError {A}.

Module JsArray.

(** [None] is a hole; reading it gives [undefined]. *)
Definition t (A : Type) : Type := list (option A).

Definition of_list {A} (l : list A) : t A := map Some l.

(** [a[i]]: [None] stands for [undefined]. *)
Definition get {A} (a : t A) (i : nat) : option A :=
  match nth_error a i with
  | Some (Some v) => Some v
  | _ => None
  end.

(** [a[i] = v]: in range the slot is overwritten, past the end the array
    grows and the slots in between are holes. *)
Fixpoint set {A} (a : t A) (i : nat) (v : A) : t A :=
  match i, a with
  | O, [] => [Some v]
  | O, _ :: rest => Some v :: rest
  | S i', [] => None :: set [] i' v
  | S i', x :: rest => x :: set rest i' v
  end.

(** [a.some(p)]: holes are skipped. *)
Definition some {A} (p : A -> bool) (a : t A) : bool :=
  existsb (fun x => match x with Some v => p v | None => false end) a.

End JsArray.

(** A [number[][]] or [boolean[][]]: the outer array is always dense (it is
    built by a literal or by [map]). *)
Definition Grid (A : Type) : Type := list (JsArray.t A).

Definition grid_of_rows {A} (rows : list (list A)) : Grid A :=
  map (@JsArray.of_list A) rows.

(** The row [g[row]], or [undefined]. *)
Definition row_at {A} (g : Grid A) (row : nat) : option (JsArray.t A) :=
  nth_error g row.

(** The expression [g[row][col]]: a TypeError when [g[row]] is undefined. *)
Definition read {A} (g : Grid A) (row col : nat) : result (option A) :=
  match row_at g row with
  | Some r => Done (JsArray.get r col)
  | None => TypeError
  end.

(** The value held at [(row, col)], if any; used in statements. *)
Definition cell {A} (g : Grid A) (row col : nat) : option A :=
  match row_at g row with
  | Some r => JsArray.get r col
  | None => None
  end.

Fixpoint replace_row {A} (g : Grid A) (row : nat) (r : JsArray.t A) : Grid A :=
  match g, row with
  | [], _ => []
  | _ :: rest, O => r :: rest
  | x :: rest, S row' => x :: replace_row rest row' r
  end.

(** The statement [g[row][col] = v] on a private copy of [g]. *)
Definition write {A} (g : Grid A) (row col : nat) (v : A) : result (Grid A) :=
  match row_at g row with
  | Some r => Done (replace_row g row (JsArray.set r col v))
  | None => TypeError
  end.

(** [x === n] where [x] may be [undefined]. *)
Definition strict_eq (x : option Z) (n : Z) : bool :=
  match x with
  | Some v => Z.eqb v n
  | None => false
  end.

(** ** Loops with early exit *)

Inductive flow (R : Type) : Type :=
| Next
| Return (r : R)
| Raise.
Arguments Next {R}.
Arguments Return {R} r.
Arguments Raise {R}.

Definition seq_flow {R} (a b : flow R) : flow R :=
  match a with
  | Next => b
  | other => other
  end.

Notation "a ;;; b" := (seq_flow a b) (at level 61, right associativity).

(** [for (let x = start; x < start + count; x++) body(x)] *)
Fixpoint for_range {R} (start count : nat) (body : nat -> flow R) : flow R :=
  match count with
  | O => Next
  | S count' => body start ;;; for_range (S start) count' body
  end.

(** [if (guard && g[r][c] === num) return false;] with the short circuit of
    [&&]: the grid is read only when [guard] holds. *)
Definition reject_if_equal (guard : bool) (g : Grid Z) (r c : nat) (num : Z)
  : flow bool :=
  if guard then
    match read g r c with
    | Done x => if strict_eq x num then Return false else Next
    | TypeError => Raise
    end
  else Next.

(** ** The three static puzzles *)

Inductive Difficulty : Type := easy | medium | hard.

Definition sudokuPuzzles (d : Difficulty) : list (list Z) :=
  match d with
  | easy =>
    [ [5; 3; 0; 0; 7; 0; 0; 0; 0];
      [6; 0; 0; 1; 9; 5; 0; 0; 0];
      [0; 9; 8; 0; 0; 0; 0; 6; 0];
      [8; 0; 0; 0; 6; 0; 0; 0; 3];
      [4; 0; 0; 8; 0; 3; 0; 0; 1];
      [7; 0; 0; 0; 2; 0; 0; 0; 6];
      [0; 6; 0; 0; 0; 0; 2; 8; 0];
      [0; 0; 0; 4; 1; 9; 0; 0; 5];
      [0; 0; 0; 0; 8; 0; 0; 7; 9] ]
  | medium =>
    [ [0; 2; 0; 6; 0; 8; 0; 0; 0];
      [5; 8; 0; 0; 0; 9; 7; 0; 0];
      [0; 0; 0; 0; 4; 0; 0; 0; 0];
      [3; 7; 0; 0; 0; 0; 5; 0; 0];
      [6; 0; 0; 0; 0; 0; 0; 0; 4];
      [0; 0; 8; 0; 0; 0; 0; 1; 3];
      [0; 0; 0; 0; 2; 0; 0; 0; 0];
      [0; 0; 9; 8; 0; 0; 0; 3; 6];
      [0; 0; 0; 3; 0; 6; 0; 9; 0] ]
  | hard =>
    [ [0; 0; 0; 6; 0; 0; 4; 0; 0];
      [7; 0; 0; 0; 0; 3; 6; 0; 0];
      [0; 0; 0; 0; 9; 1; 0; 8; 0];
      [0; 0; 0; 0; 0; 0; 0; 0; 0];
      [0; 5; 0; 1; 8; 0; 0; 0; 3];
      [0; 0; 0; 3; 0; 6; 0; 4; 5];
      [0; 4; 0; 2; 0; 0; 0; 6; 0];
      [9; 0; 3; 0; 0; 0; 0; 0; 0];
      [0; 2; 0; 0; 0; 0; 1; 0; 0] ]
  end%Z.

(** ** [isValidMove] *)

(** The three scans of [isValidMove], each a loop that returns [false] at
    the first duplicate. *)
Definition row_scan (grid : Grid Z) (row col : nat) (num : Z) : flow bool :=
  for_range 0 9 (fun x =>
    reject_if_equal (negb (x =? col)) grid row x num).

Definition col_scan (grid : Grid Z) (row col : nat) (num : Z) : flow bool :=
  for_range 0 9 (fun x =>
    reject_if_equal (negb (x =? row)) grid x col num).

Definition box_scan (grid : Grid Z) (row col : nat) (num : Z) : flow bool :=
  let startRow := row - (row mod 3) in
  let startCol := col - (col mod 3) in
  for_range 0 3 (fun i =>
    for_range 0 3 (fun j =>
      let currentRow := startRow + i in
      let currentCol := startCol + j in
      reject_if_equal
        (negb (currentRow =? row) || negb (currentCol =? col))
        grid currentRow currentCol num)).

(** What the caller gets from a function whose body is [body] followed by
    a trailing [return final;]. *)
Definition returned {R} (body : flow R) (final : R) : result R :=
  match body with
  | Return r => Done r
  | Next => Done final
  | Raise => TypeError
  end.

Definition isValidMove (grid : Grid Z) (row col : nat) (num : Z) : result bool :=
  returned
    (row_scan grid row col num ;;;
     col_scan grid row col num ;;;
     box_scan grid row col num)
    true.

(** ** [isSolved] *)

Definition isSolved (grid : Grid Z) : result bool :=
  returned
    (for_range 0 9 (fun row =>
       for_range 0 9 (fun col =>
         reject_if_equal true grid row col 0%Z)))
    true.

(** ** Component state, signals and the handler monad *)

Record State : Type := mkState {
  grid : Grid Z;
  initialGrid : Grid Z;
  errors : Grid bool;
  correctCells : Grid bool;
  selectedNumber : Z;
  selectedCell : option (nat * nat);
  highlightedNumber : option Z
}.

(** What the component sends to the outside: the two callbacks of its
    props and the two kinds of toast. *)
Inductive Signal : Type :=
| OnSolved
| OnError
| ToastError (num : Z)
| ToastSuccess (num : Z).

(** The state updates scheduled so far and the signals sent so far.  An
    exception aborts the handler and keeps both. *)
Record World : Type := mkWorld {
  pending : State;
  sent : list Signal
}.

Definition Handler (A : Type) : Type := World -> result A * World.

Definition ret {A} (a : A) : Handler A := fun w => (Done a, w).

Definition bind {A B} (m : Handler A) (f : A -> Handler B) : Handler B :=
  fun w =>
    match m w with
    | (Done a, w') => f a w'
    | (TypeError, w') => (TypeError, w')
    end.

Notation "x <- m ;; k" := (bind m (fun x => k))
  (at level 62, m at next level, right associativity).
Notation "m ;; k" := (bind m (fun _ => k))
  (at level 62, right associativity).

Definition lift {A} (r : result A) : Handler A := fun w => (r, w).

Definition emit (sig : Signal) : Handler unit :=
  fun w => (Done tt, mkWorld (pending w) (sent w ++ [sig])).

Definition update (f : State -> State) : Handler unit :=
  fun w => (Done tt, mkWorld (f (pending w)) (sent w)).

Definition setGrid (g : Grid Z) : Handler unit :=
  update (fun s => mkState g (initialGrid s) (errors s) (correctCells s)
                     (selectedNumber s) (selectedCell s) (highlightedNumber s)).

Definition setInitialGrid (g : Grid Z) : Handler unit :=
  update (fun s => mkState (grid s) g (errors s) (correctCells s)
                     (selectedNumber s) (selectedCell s) (highlightedNumber s)).

Definition setErrors (e : Grid bool) : Handler unit :=
  update (fun s => mkState (grid s) (initialGrid s) e (correctCells s)
                     (selectedNumber s) (selectedCell s) (highlightedNumber s)).

Definition setCorrectCells (c : Grid bool) : Handler unit :=
  update (fun s => mkState (grid s) (initialGrid s) (errors s) c
                     (selectedNumber s) (selectedCell s) (highlightedNumber s)).

Definition setSelectedNumber (n : Z) : Handler unit :=
  update (fun s => mkState (grid s) (initialGrid s) (errors s) (correctCells s)
                     n (selectedCell s) (highlightedNumber s)).

Definition setSelectedCell (c : option (nat * nat)) : Handler unit :=
  update (fun s => mkState (grid s) (initialGrid s) (errors s) (correctCells s)
                     (selectedNumber s) c (highlightedNumber s)).

Definition setHighlightedNumber (n : option Z) : Handler unit :=
  update (fun s => mkState (grid s) (initialGrid s) (errors s) (correctCells s)
                     (selectedNumber s) (selectedCell s) n).

(** ** [handleCellClick] *)

(** [newErrors.some((row) => row.some((cell) => cell))] *)
Definition any_error (e : Grid bool) : bool :=
  existsb (JsArray.some (fun flag : bool => flag)) e.

(** The handler closes over the rendered state [st] and the prop
    [gameOver].  [g.map((r) => [...r])] copies [g]; a copy has the same
    reads as the original, so it is the same value here. *)
Definition handleCellClick (st : State) (gameOver : bool) (row col : nat)
  : Handler unit :=
  init <- lift (read (initialGrid st) row col) ;;
  if negb (strict_eq init 0) || gameOver then ret tt
  else
    setSelectedCell (Some (row, col)) ;;
    let newGrid := grid st in
    let newErrors := errors st in
    let newCorrectCells := correctCells st in
    newGrid <- lift (write newGrid row col (selectedNumber st)) ;;
    invalid <-
      (if negb (selectedNumber st =? 0)%Z then
         valid <- lift (isValidMove newGrid row col (selectedNumber st)) ;;
         ret (negb valid)
       else ret false) ;;
    flags <-
      (if invalid : bool then
         newErrors <- lift (write newErrors row col true) ;;
         newCorrectCells <- lift (write newCorrectCells row col false) ;;
         emit OnError ;;
         emit (ToastError (selectedNumber st)) ;;
         ret (newErrors, newCorrectCells)
       else
         newErrors <- lift (write newErrors row col false) ;;
         newCorrectCells <- lift (write newCorrectCells row col true) ;;
         emit (ToastSuccess (selectedNumber st)) ;;
         ret (newErrors, newCorrectCells)) ;;
    let newErrors := fst flags in
    let newCorrectCells := snd flags in
    setGrid newGrid ;;
    setErrors newErrors ;;
    setCorrectCells newCorrectCells ;;
    solved <- lift (isSolved newGrid) ;;
    if solved && negb (any_error newErrors) then emit OnSolved else ret tt.

Definition handleNumberSelect (number : Z) : Handler unit :=
  setSelectedNumber number ;;
  setHighlightedNumber (Some number).

(** ** The component over time *)

Record Props : Type := mkProps {
  difficulty : Difficulty;
  gameOver : bool
}.

(** The values given to [useState]. *)
Definition initial_state : State :=
  mkState [] [] [] [] 1%Z None None.

(** [Array(9).fill(null).map(() => Array(9).fill(false))] *)
Definition all_false : Grid bool :=
  repeat (repeat (Some false) 9) 9.

(** The effect that runs on mount and whenever [difficulty] changes. *)
Definition load_effect (d : Difficulty) : Handler unit :=
  let puzzle := sudokuPuzzles d in
  setGrid (grid_of_rows puzzle) ;;
  setInitialGrid (grid_of_rows puzzle) ;;
  setErrors all_false ;;
  setCorrectCells all_false.

Record Component : Type := mkComponent {
  props : Props;
  state : State
}.

Inductive Event : Type :=
| CellClick (row col : nat)
| NumberSelect (number : Z)
| NewProps (p : Props).

Definition Difficulty_eqb (a b : Difficulty) : bool :=
  match a, b with
  | easy, easy | medium, medium | hard, hard => true
  | _, _ => false
  end.

(** Run a handler against the rendered state; the next render shows the
    pending state, the caller sees the signals. *)
Definition run (h : Handler unit) (st : State) : State * list Signal :=
  let w := snd (h (mkWorld st [])) in (pending w, sent w).

Definition mount (p : Props) : Component :=
  mkComponent p (fst (run (load_effect (difficulty p)) initial_state)).

Definition dispatch (c : Component) (e : Event) : Component * list Signal :=
  match e with
  | CellClick row col =>
      let out := run (handleCellClick (state c) (gameOver (props c)) row col)
                     (state c) in
      (mkComponent (props c) (fst out), snd out)
  | NumberSelect number =>
      let out := run (handleNumberSelect number) (state c) in
      (mkComponent (props c) (fst out), snd out)
  | NewProps p =>
      if Difficulty_eqb (difficulty p) (difficulty (props c))
      then (mkComponent p (state c), [])
      else (mkComponent p (fst (run (load_effect (difficulty p)) (state c))), [])
  end.

(** The component after a list of events, and the signals of each event. *)
Fixpoint dispatch_all (c : Component) (es : list Event)
  : Component * list (list Signal) :=
  match es with
  | [] => (c, [])
  | e :: rest =>
      let (c', sigs) := dispatch c e in
      let (c'', log) := dispatch_all c' rest in
      (c'', sigs :: log)
  end.

(** One placement as the user makes it: pick a digit, then click a cell.
    The result carries the signals of the click. *)
Definition place (c : Component) (move : nat * nat * Z)
  : Component * list Signal :=
  let '(row, col, digit) := move in
  dispatch (fst (dispatch c (NumberSelect digit))) (CellClick row col).

Fixpoint play (c : Component) (moves : list (nat * nat * Z))
  : Component * list (list Signal) :=
  match moves with
  | [] => (c, [])
  | m :: rest =>
      let (c', sigs) := place c m in
      let (c'', log) := play c' rest in
      (c'', sigs :: log)
  end.

(** ** Notions used in the statements *)

Definition is_some {A} (x : option A) : bool :=
  match x with Some _ => true | None => false end.

(** A grid of nine rows of nine defined cells. *)
Definition is_9x9b {A} (g : Grid A) : bool :=
  (length g =? 9) &&
  forallb (fun r => (length r =? 9) && forallb (@is_some A) r) g.

Definition is_9x9 {A} (g : Grid A) : Prop := is_9x9b g = true.

(** The state of a component showing a board: all four grids are 9x9. *)
Definition board_state (st : State) : Prop :=
  is_9x9 (grid st) /\ is_9x9 (initialGrid st) /\
  is_9x9 (errors st) /\ is_9x9 (correctCells st).

(** The grid whose cell [(c, r)] is the cell [(r, c)] of [g]. *)
Definition transpose (g : Grid Z) : Grid Z :=
  map (fun c => map (fun r => cell g r c) (seq 0 9)) (seq 0 9).

(** [isValidMove] with its three loops run in a chosen order. *)
Inductive Scan : Type := RowScan | ColScan | BoxScan.

Definition run_scan (s : Scan) : Grid Z -> nat -> nat -> Z -> flow bool :=
  match s with
  | RowScan => row_scan
  | ColScan => col_scan
  | BoxScan => box_scan
  end.

Definition isValidMove_in_order (order : list Scan)
    (grid : Grid Z) (row col : nat) (num : Z) : result bool :=
  returned
    (fold_right (fun s rest => run_scan s grid row col num ;;; rest) Next order)
    true.

(** The 81 coordinates, row by row. *)
Definition all_cells : list (nat * nat) :=
  list_prod (seq 0 9) (seq 0 9).

(** The number at [(r, c)] of a literal table of rows. *)
Definition digit_at (rows : list (list Z)) (rc : nat * nat) : Z :=
  nth (snd rc) (nth (fst rc) rows []) 0%Z.

Definition empty_cells (puzzle : list (list Z)) : list (nat * nat) :=
  filter (fun rc => (digit_at puzzle rc =? 0)%Z) all_cells.

(** Two different cells that share a row, a column or a 3x3 box. *)
Definition peers (a b : nat * nat) : bool :=
  negb ((fst a =? fst b) && (snd a =? snd b)) &&
  ((fst a =? fst b) || (snd a =? snd b) ||
   ((fst a / 3 =? fst b / 3) && (snd a / 3 =? snd b / 3))).

(** [sol] is a correct solution of [puzzle]: nine rows of nine digits
    1..9, equal to the puzzle on its prefilled cells, with no digit twice
    in a row, a column or a box. *)
Definition is_solutionb (puzzle sol : list (list Z)) : bool :=
  (length sol =? 9) &&
  forallb (fun r => length r =? 9) sol &&
  forallb (fun a =>
    (1 <=? digit_at sol a)%Z && (digit_at sol a <=? 9)%Z &&
    ((digit_at puzzle a =? 0)%Z || (digit_at puzzle a =? digit_at sol a)%Z) &&
    forallb (fun b =>
      negb (peers a b) || negb (digit_at sol a =? digit_at sol b)%Z) all_cells)
    all_cells.

Definition is_solution (puzzle sol : list (list Z)) : Prop :=
  is_solutionb puzzle sol = true.

(** The placements that fill [cells] with the digits of [sol]. *)
Definition solution_moves (sol : list (list Z)) (cells : list (nat * nat))
  : list (nat * nat * Z) :=
  map (fun rc => (fst rc, snd rc, digit_at sol rc)) cells.

Definition is_OnSolved (s : Signal) : bool :=
  match s with OnSolved => true | _ => false end.

(** The session outcome of the specification, read off a component and the
    signals it has sent: game over when the prop says so, solved once
    [onSolved] has been called. *)
Inductive Outcome : Type := InProgress | Solved | GameOver.

Definition outcome (c : Component) (log : list (list Signal)) : Outcome :=
  if gameOver (props c) then GameOver
  else if existsb (existsb is_OnSolved) log then Solved
  else InProgress.

(** The solutions of the three puzzles. *)
Definition solutions (d : Difficulty) : list (list Z) :=
  match d with
  | easy =>
    [ [5; 3; 4; 6; 7; 8; 9; 1; 2];
      [6; 7; 2; 1; 9; 5; 3; 4; 8];
      [1; 9; 8; 3; 4; 2; 5; 6; 7];
      [8; 5; 9; 7; 6; 1; 4; 2; 3];
      [4; 2; 6; 8; 5; 3; 7; 9; 1];
      [7; 1; 3; 9; 2; 4; 8; 5; 6];
      [9; 6; 1; 5; 3; 7; 2; 8; 4];
      [2; 8; 7; 4; 1; 9; 6; 3; 5];
      [3; 4; 5; 2; 8; 6; 1; 7; 9] ]
  | medium =>
    [ [1; 2; 3; 6; 7; 8; 9; 4; 5];
      [5; 8; 4; 2; 3; 9; 7; 6; 1];
      [9; 6; 7; 1; 4; 5; 3; 2; 8];
      [3; 7; 2; 4; 6; 1; 5; 8; 9];
      [6; 9; 1; 5; 8; 3; 2; 7; 4];
      [4; 5; 8; 7; 9; 2; 6; 1; 3];
      [8; 3; 6; 9; 2; 4; 1; 5; 7];
      [2; 1; 9; 8; 5; 7; 4; 3; 6];
      [7; 4; 5; 3; 1; 6; 8; 9; 2] ]
  | hard =>
    [ [5; 8; 1; 6; 7; 2; 4; 3; 9];
      [7; 9; 2; 8; 4; 3; 6; 5; 1];
      [3; 6; 4; 5; 9; 1; 7; 8; 2];
      [4; 3; 8; 9; 5; 7; 2; 1; 6];
      [2; 5; 6; 1; 8; 4; 9; 7; 3];
      [1; 7; 9; 3; 2; 6; 8; 4; 5];
      [8; 4; 5; 2; 1; 9; 3; 6; 7];
      [9; 1; 3; 7; 6; 8; 5; 2; 4];
      [6; 2; 7; 4; 3; 5; 1; 9; 8] ]
  end%Z.

(** Closed forms of the scans: whether a duplicate of [num] is met. *)
Definition row_dup (g : Grid Z) (row col : nat) (num : Z) : bool :=
  existsb (fun x => negb (x =? col) && strict_eq (cell g row x) num) (seq 0 9).

Definition col_dup (g : Grid Z) (row col : nat) (num : Z) : bool :=
  existsb (fun x => negb (x =? row) && strict_eq (cell g x col) num) (seq 0 9).

Definition box_dup (g : Grid Z) (row col : nat) (num : Z) : bool :=
  existsb (fun i =>
    existsb (fun j =>
      (negb (row - row mod 3 + i =? row) || negb (col - col mod 3 + j =? col)) &&
      strict_eq (cell g (row - row mod 3 + i) (col - col mod 3 + j)) num)
      (seq 0 3))
    (seq 0 3).

Definition has_zero (g : Grid Z) : bool :=
  existsb (fun r => existsb (fun c => strict_eq (cell g r c) 0%Z) (seq 0 9))
    (seq 0 9).

Definition dup_of (s : Scan) : Grid Z -> nat -> nat -> Z -> bool :=
  match s with
  | RowScan => row_dup
  | ColScan => col_dup
  | BoxScan => box_dup
  end.

(** Whether [handleCellClick] takes its error branch for [num] written at
    [(row, col)] of [g]. *)
Definition invalid_move (g : Grid Z) (row col : nat) (num : Z) : bool :=
  negb (num =? 0)%Z &&
  (row_dup g row col num || col_dup g row col num || box_dup g row col num).

(** The test of the handler, [selectedNumber !== 0 && !isValidMove(newGrid,
    row, col, selectedNumber)], on the copy of the grid that holds the
    selected number at [(row, col)]; [false] when evaluating it raises. *)
Definition judged_invalid (st : State) (row col : nat) : bool :=
  match write (grid st) row col (selectedNumber st) with
  | Done newGrid =>
      negb (selectedNumber st =? 0)%Z &&
      match isValidMove newGrid row col (selectedNumber st) with
      | Done valid => negb valid
      | TypeError => false
      end
  | TypeError => false
  end.

(** Prefilled cells hold their initial value. *)
Definition prefilled_kept (st : State) : Prop :=
  forall r c v,
    cell (initialGrid st) r c = Some v -> v <> 0%Z ->
    cell (grid st) r c = Some v.

(** What holds of a mounted component at every moment: it shows a board,
    the initial grid is the puzzle of the current difficulty, and the
    prefilled cells are as in the puzzle. *)
Definition session_invariant (c : Component) : Prop :=
  board_state (state c) /\
  initialGrid (state c) = grid_of_rows (sudokuPuzzles (difficulty (props c))) /\
  prefilled_kept (state c).

Definition cell_eqb (a b : nat * nat) : bool :=
  (fst a =? fst b) && (snd a =? snd b).

Fixpoint nodupb (l : list (nat * nat)) : bool :=
  match l with
  | [] => true
  | x :: rest => negb (existsb (cell_eqb x) rest) && nodupb rest
  end.

(** A cell that holds a digit once the cells of [placed] have been filled:
    prefilled in the puzzle, or one of [placed]. *)
Definition is_filled (puzzle : list (list Z)) (placed : list (nat * nat))
    (rc : nat * nat) : bool :=
  negb (digit_at puzzle rc =? 0)%Z || existsb (cell_eqb rc) placed.

(** The grid [g] shows the digits of [sol] on the filled cells and 0 on the
    others. *)
Definition filled_as (puzzle sol : list (list Z)) (placed : list (nat * nat))
    (g : Grid Z) : Prop :=
  forall r c, r < 9 -> c < 9 ->
    cell g r c =
    Some (if is_filled puzzle placed (r, c) then digit_at sol (r, c) else 0%Z).

(** The component while the solution of puzzle [d] is being entered. *)
Definition solving (d : Difficulty) (sol : list (list Z))
    (placed : list (nat * nat)) (c : Component) : Prop :=
  props c = mkProps d false /\
  board_state (state c) /\
  initialGrid (state c) = grid_of_rows (sudokuPuzzles d) /\
  any_error (errors (state c)) = false /\
  filled_as (sudokuPuzzles d) sol placed (grid (state c)).

(** ** The rest of the component: rendering and what the user can do *)

(** What a handler returns to React: [Done] or the exception. *)
Definition outcome_of {A} (h : Handler A) (st : State) : result A :=
  fst (h (mkWorld st [])).

(** The events the rendered component offers.  A cell [div] exists for each
    index of [grid.map((row, rowIndex) => row.map((cell, colIndex) => ...))],
    its [onClick] calls [handleCellClick(rowIndex, colIndex)]; the picker
    has one button for each of 1..9, calling [handleNumberSelect(number)].
    (The buttons are disabled when [gameOver], and [map] makes no [div]
    for a hole of a row; here these are offered all the same, which only
    adds events.)  New props come from the parent. *)
Definition offered (c : Component) (e : Event) : bool :=
  match e with
  | CellClick row col =>
      match row_at (grid (state c)) row with
      | Some r => col <? length r
      | None => false
      end
  | NumberSelect number => existsb (Z.eqb number) [1; 2; 3; 4; 5; 6; 7; 8; 9]%Z
  | NewProps _ => true
  end.

(** Every event of the list is offered when it is sent. *)
Fixpoint offered_all (c : Component) (es : list Event) : bool :=
  match es with
  | [] => true
  | e :: rest => offered c e && offered_all (fst (dispatch c e)) rest
  end.

(** No cell carries both flags, and a flagged cell is an editable one; a
    cell flagged as an error holds a number other than 0. *)
Definition flags_consistent (st : State) : Prop :=
  forall r c,
    (cell (errors st) r c = Some true ->
     cell (correctCells st) r c = Some false /\
     cell (initialGrid st) r c = Some 0%Z /\
     exists v, cell (grid st) r c = Some v /\ v <> 0%Z) /\
    (cell (correctCells st) r c = Some true ->
     cell (errors st) r c = Some false /\
     cell (initialGrid st) r c = Some 0%Z).

(** The text of a cell value inside a template literal. *)
Definition show_cell (x : option Z) : string :=
  match x with
  | Some v => NilZero.string_of_int (Z.to_int v)
  | None => "undefined"
  end.

(** A flag used as a condition: [undefined] is falsy. *)
Definition truthy (x : option bool) : bool :=
  match x with
  | Some b => b
  | None => false
  end.

Definition result_bind {A B} (r : result A) (k : A -> result B) : result B :=
  match r with
  | Done a => k a
  | TypeError => TypeError
  end.

(** [getCellClassName], closed over the rendered state and [gameOver]. *)
Definition getCellClassName (st : State) (gameOver : bool) (row col : nat)
  : result string :=
  let className := "sudoku-cell cursor-pointer text-black"%string in
  result_bind (read (initialGrid st) row col) (fun init =>
  let className :=
    if negb (strict_eq init 0)
    then (className ++ " prefilled cursor-not-allowed font-bold")%string
    else (className ++ " bg-white")%string in
  result_bind (read (grid st) row col) (fun value =>
  result_bind
    (if negb (strict_eq value 0) && strict_eq init 0 then
       result_bind (read (errors st) row col) (fun e =>
       if truthy e
       then Done (className ++ " border-2 border-red-500 animate-shake")%string
       else
         result_bind (read (correctCells st) row col) (fun k =>
         if truthy k
         then Done (className ++ " correct-cell")%string
         else Done className))
     else Done className) (fun className =>
  let className :=
    if negb (strict_eq value 0)
    then (className ++ (" number-" ++ show_cell value))%string
    else className in
  let className :=
    match selectedCell st with
    | Some (r, c) =>
        if (r =? row) && (c =? col)
        then (className ++ " ring-2 ring-primary")%string
        else className
    | None => className
    end in
  let className :=
    if gameOver
    then (className ++ " cursor-not-allowed opacity-50")%string
    else className in
  Done className))).

Definition getBorderClasses (row col : nat) : string :=
  let borderClasses := ""%string in
  let borderClasses :=
    if (row mod 3 =? 0) && negb (row =? 0)
    then (borderClasses ++ " border-t-2 border-t-foreground")%string
    else borderClasses in
  let borderClasses :=
    if (col mod 3 =? 0) && negb (col =? 0)
    then (borderClasses ++ " border-l-2 border-l-foreground")%string
    else borderClasses in
  let borderClasses :=
    if row =? 8
    then (borderClasses ++ " border-b-2 border-b-foreground")%string
    else borderClasses in
  let borderClasses :=
    if col =? 8
    then (borderClasses ++ " border-r-2 border-r-foreground")%string
    else borderClasses in
  borderClasses.

(** The [backgroundColor] of a cell, from [initialGrid[rowIndex][colIndex]]. *)
Definition cellBackground (init : option Z) : string :=
  if negb (strict_eq init 0) then
    if strict_eq init 1 then "#BFDBFE"
    else if strict_eq init 2 then "#D1FAE5"
    else if strict_eq init 3 then "#FEE2E2"
    else if strict_eq init 4 then "#FEF3C7"
    else if strict_eq init 5 then "#EDE9FE"
    else if strict_eq init 6 then "#FCE7F3"
    else if strict_eq init 7 then "#E0E7FF"
    else if strict_eq init 8 then "#FFEDD5"
    else if strict_eq init 9 then "#CCFBF1"
    else "#FFFFFF"
  else "#FFFFFF".

(** The [backgroundColor] of the picker button of [number]. *)
Definition pickerBackground (number : Z) : string :=
  if (number =? 1)%Z then "#BFDBFE"
  else if (number =? 2)%Z then "#D1FAE5"
  else if (number =? 3)%Z then "#FEE2E2"
  else if (number =? 4)%Z then "#FEF3C7"
  else if (number =? 5)%Z then "#EDE9FE"
  else if (number =? 6)%Z then "#FCE7F3"
  else if (number =? 7)%Z then "#E0E7FF"
  else if (number =? 8)%Z then "#FFEDD5"
  else if (number =? 9)%Z then "#CCFBF1"
  else "#FFFFFF".

(** Whether [part] occurs in [s]. *)
Definition contains (part s : string) : bool :=
  match String.index 0 part s with
  | Some _ => true
  | None => false
  end.

(** * Properties *)

(** ** The solutions are solutions *)

Lemma solutions_correct (d : Difficulty) :
  is_solution (sudokuPuzzles d) (solutions d).
Proof. destruct d; vm_compute; reflexivity. Qed.

(** ** Arrays and grids *)

Lemma get_set_same {A} (a : JsArray.t A) (i : nat) (v : A) :
  JsArray.get (JsArray.set a i v) i = Some v.
Proof.
  unfold JsArray.get. revert a.
  induction i as [|i IH]; intros [|x a]; simpl; auto.
Qed.

Lemma get_set_other {A} (a : JsArray.t A) (i j : nat) (v : A) :
  i <> j -> JsArray.get (JsArray.set a i v) j = JsArray.get a j.
Proof.
  unfold JsArray.get. revert a j.
  induction i as [|i IH]; intros [|x a] [|j] Hij; simpl; try congruence.
  - destruct j; reflexivity.
  - rewrite (IH [] j) by congruence. destruct j; reflexivity.
  - apply IH. congruence.
Qed.

Lemma set_length {A} (a : JsArray.t A) (i : nat) (v : A) :
  i < length a -> length (JsArray.set a i v) = length a.
Proof.
  revert a. induction i as [|i IH]; intros [|x a] Hi; simpl in *; try lia.
  rewrite IH; lia.
Qed.

Lemma set_defined {A} (a : JsArray.t A) (i : nat) (v : A) :
  i < length a ->
  forallb (@is_some A) a = true ->
  forallb (@is_some A) (JsArray.set a i v) = true.
Proof.
  revert a. induction i as [|i IH]; intros [|x a] Hi Ha; simpl in *; try lia.
  - apply andb_true_iff in Ha. tauto.
  - apply andb_true_iff in Ha. destruct Ha as [Hx Ha].
    rewrite Hx. simpl. apply IH; [lia | assumption].
Qed.

Lemma replace_row_length {A} (g : Grid A) (row : nat) (r : JsArray.t A) :
  length (replace_row g row r) = length g.
Proof.
  revert row. induction g as [|x g IH]; intros [|row]; simpl; auto.
Qed.

Lemma row_at_replace_same {A} (g : Grid A) (row : nat) (r : JsArray.t A) :
  row < length g -> row_at (replace_row g row r) row = Some r.
Proof.
  unfold row_at. revert row.
  induction g as [|x g IH]; intros [|row] H; simpl in *; try lia; auto.
  apply IH. lia.
Qed.

Lemma row_at_replace_other {A} (g : Grid A) (row row' : nat) (r : JsArray.t A) :
  row <> row' -> row_at (replace_row g row r) row' = row_at g row'.
Proof.
  unfold row_at. revert row row'.
  induction g as [|x g IH]; intros [|row] [|row'] H; simpl; try congruence.
  apply IH. congruence.
Qed.

Lemma row_at_Some {A} (g : Grid A) (row : nat) :
  row < length g -> exists r, row_at g row = Some r.
Proof.
  intro H. unfold row_at. destruct (nth_error g row) eqn:E; eauto.
  apply nth_error_None in E. lia.
Qed.

Lemma read_cell {A} (g : Grid A) (row col : nat) :
  row < length g -> read g row col = Done (cell g row col).
Proof.
  intro H. unfold read, cell.
  destruct (row_at_Some g row H) as [r ->]. reflexivity.
Qed.

Lemma write_Done {A} (g : Grid A) (row col : nat) (v : A) :
  row < length g -> exists g', write g row col v = Done g'.
Proof.
  intro H. unfold write. destruct (row_at_Some g row H) as [r ->]. eauto.
Qed.

Lemma write_length {A} (g g' : Grid A) (row col : nat) (v : A) :
  write g row col v = Done g' -> length g' = length g.
Proof.
  unfold write. destruct (row_at g row); intro H; inversion H.
  apply replace_row_length.
Qed.

(** A write changes the target cell and no other. *)
Lemma cell_write {A} (g g' : Grid A) (row col : nat) (v : A) (r c : nat) :
  write g row col v = Done g' ->
  cell g' r c = if (r =? row) && (c =? col) then Some v else cell g r c.
Proof.
  unfold write. destruct (row_at g row) as [old|] eqn:E; intro H; inversion H.
  subst g'. clear H. unfold cell.
  assert (Hlt : row < length g).
  { apply nth_error_Some. unfold row_at in E. congruence. }
  destruct (Nat.eqb_spec r row) as [->|Hr]; simpl.
  - rewrite row_at_replace_same by assumption. rewrite E.
    destruct (Nat.eqb_spec c col) as [->|Hc].
    + apply get_set_same.
    + apply get_set_other. congruence.
  - rewrite row_at_replace_other by congruence. reflexivity.
Qed.

Lemma is_9x9_length {A} (g : Grid A) : is_9x9 g -> length g = 9.
Proof.
  unfold is_9x9, is_9x9b. intro H. apply andb_true_iff in H.
  destruct H as [H _]. now apply Nat.eqb_eq in H.
Qed.

Lemma is_9x9_row {A} (g : Grid A) (row : nat) (r : JsArray.t A) :
  is_9x9 g -> row_at g row = Some r ->
  length r = 9 /\ forallb (@is_some A) r = true.
Proof.
  unfold is_9x9, is_9x9b, row_at. intros H E.
  apply andb_true_iff in H. destruct H as [_ H].
  rewrite forallb_forall in H. apply nth_error_In in E.
  specialize (H r E). apply andb_true_iff in H. destruct H as [H1 H2].
  apply Nat.eqb_eq in H1. auto.
Qed.

Lemma is_9x9_cell {A} (g : Grid A) (r c : nat) :
  is_9x9 g -> r < 9 -> c < 9 -> exists v, cell g r c = Some v.
Proof.
  intros H Hr Hc. pose proof (is_9x9_length g H) as Hlen.
  assert (Hlt : r < length g) by lia.
  destruct (row_at_Some g r Hlt) as [x Ex].
  destruct (is_9x9_row g r x H Ex) as [Hx Hdef].
  unfold cell, JsArray.get. rewrite Ex.
  destruct (nth_error x c) as [o|] eqn:E.
  - rewrite forallb_forall in Hdef. apply nth_error_In in E.
    specialize (Hdef o E). destruct o; [eauto | discriminate].
  - apply nth_error_None in E. lia.
Qed.

Lemma is_9x9_outside {A} (g : Grid A) (r c : nat) :
  is_9x9 g -> 9 <= r \/ 9 <= c -> cell g r c = None.
Proof.
  intros H Hout. pose proof (is_9x9_length g H) as Hlen.
  unfold cell. destruct (row_at g r) as [x|] eqn:Ex; [|reflexivity].
  destruct (is_9x9_row g r x H Ex) as [Hx _].
  assert (r < 9).
  { rewrite <- Hlen. apply nth_error_Some. unfold row_at in Ex. congruence. }
  unfold JsArray.get.
  assert (E : nth_error x c = None) by (apply nth_error_None; lia).
  now rewrite E.
Qed.

Lemma forallb_replace_row {A} (p : JsArray.t A -> bool) (g : Grid A)
    (row : nat) (r : JsArray.t A) :
  forallb p g = true -> p r = true -> forallb p (replace_row g row r) = true.
Proof.
  revert row. induction g as [|x g IH]; intros [|row] Hg Hr; simpl in *; auto.
  - apply andb_true_iff in Hg. destruct Hg as [_ Hg].
    now rewrite Hr, Hg.
  - apply andb_true_iff in Hg. destruct Hg as [Hx Hg].
    rewrite Hx. simpl. now apply IH.
Qed.

Lemma is_9x9_write {A} (g g' : Grid A) (row col : nat) (v : A) :
  is_9x9 g -> col < 9 -> write g row col v = Done g' -> is_9x9 g'.
Proof.
  intros H Hc W. unfold write in W.
  destruct (row_at g row) as [r|] eqn:E; inversion W. subst g'. clear W.
  destruct (is_9x9_row g row r H E) as [Hlen Hdef].
  unfold is_9x9, is_9x9b in *. apply andb_true_iff in H.
  destruct H as [H1 H2]. apply andb_true_iff. split.
  - now rewrite replace_row_length.
  - apply forallb_replace_row; [assumption|].
    apply andb_true_iff. split.
    + apply Nat.eqb_eq. rewrite set_length; lia.
    + apply set_defined; [lia | assumption].
Qed.

(** ** Loops *)

Lemma for_range_reject (p : nat -> bool) (body : nat -> flow bool)
    (start count : nat) :
  (forall x, start <= x < start + count ->
             body x = if p x then Return false else Next) ->
  for_range start count body =
  if existsb p (seq start count) then Return false else Next.
Proof.
  revert start. induction count as [|n IH]; intros start H; simpl.
  - reflexivity.
  - rewrite (H start) by lia. destruct (p start); simpl.
    + reflexivity.
    + apply IH. intros x Hx. apply H. lia.
Qed.

Lemma reject_if_equal_closed (guard : bool) (g : Grid Z) (r c : nat) (num : Z) :
  (guard = true -> r < length g) ->
  reject_if_equal guard g r c num =
  if guard && strict_eq (cell g r c) num then Return false else Next.
Proof.
  intro H. unfold reject_if_equal. destruct guard; simpl; [|reflexivity].
  rewrite read_cell by auto. reflexivity.
Qed.

Lemma strict_eq_true (x : option Z) (n : Z) :
  strict_eq x n = true <-> x = Some n.
Proof.
  destruct x as [v|]; simpl.
  - rewrite Z.eqb_eq. split; congruence.
  - split; discriminate.
Qed.

Lemma box_start_bound (n i : nat) : n < 9 -> i < 3 -> n - n mod 3 + i < 9.
Proof.
  intros Hn Hi.
  do 9 (destruct n as [|n]; [simpl; lia|]). lia.
Qed.

(** ** Closed forms of [isValidMove] and [isSolved] *)

Lemma row_scan_closed (g : Grid Z) (row col : nat) (num : Z) :
  row < length g ->
  row_scan g row col num =
  if row_dup g row col num then Return false else Next.
Proof.
  intro H. unfold row_scan, row_dup. apply for_range_reject.
  intros x _. apply reject_if_equal_closed. auto.
Qed.

Lemma col_scan_closed (g : Grid Z) (row col : nat) (num : Z) :
  9 <= length g ->
  col_scan g row col num =
  if col_dup g row col num then Return false else Next.
Proof.
  intro H. unfold col_scan, col_dup. apply for_range_reject.
  intros x Hx. apply reject_if_equal_closed. lia.
Qed.

Lemma box_scan_closed (g : Grid Z) (row col : nat) (num : Z) :
  9 <= length g -> row < 9 ->
  box_scan g row col num =
  if box_dup g row col num then Return false else Next.
Proof.
  intros H Hrow. unfold box_scan, box_dup. cbv zeta.
  apply for_range_reject. intros i Hi.
  apply for_range_reject. intros j _.
  apply reject_if_equal_closed. intros _.
  pose proof (@box_start_bound row i Hrow). lia.
Qed.

Lemma isValidMove_closed (g : Grid Z) (row col : nat) (num : Z) :
  9 <= length g -> row < 9 ->
  isValidMove g row col num =
  Done (negb (row_dup g row col num || col_dup g row col num
              || box_dup g row col num)).
Proof.
  intros H Hrow. unfold isValidMove.
  rewrite row_scan_closed by lia.
  rewrite col_scan_closed by lia.
  rewrite box_scan_closed by lia.
  destruct (row_dup g row col num), (col_dup g row col num),
           (box_dup g row col num); reflexivity.
Qed.

Lemma isSolved_closed (g : Grid Z) :
  9 <= length g -> isSolved g = Done (negb (has_zero g)).
Proof.
  intro H. unfold isSolved, has_zero.
  rewrite (@for_range_reject
    (fun r => existsb (fun c => strict_eq (cell g r c) 0%Z) (seq 0 9))).
  - destruct (existsb _ _); reflexivity.
  - intros r Hr. apply for_range_reject. intros c _.
    rewrite reject_if_equal_closed by (intros; lia). reflexivity.
Qed.

(** ** What the closed forms say *)

Lemma existsb_seq_false (p : nat -> bool) (n : nat) :
  existsb p (seq 0 n) = false <-> forall x, x < n -> p x = false.
Proof.
  split.
  - intros H x Hx.
    destruct (p x) eqn:E; [|reflexivity].
    rewrite <- H. symmetry. apply existsb_exists.
    exists x. split; [apply in_seq; lia | assumption].
  - intro H. destruct (existsb p (seq 0 n)) eqn:E; [|reflexivity].
    apply existsb_exists in E. destruct E as [x [Hin Hx]].
    apply in_seq in Hin. rewrite H in Hx by lia. discriminate.
Qed.

Lemma guarded_eq_false (guard : bool) (x : option Z) (n : Z) :
  guard && strict_eq x n = false <-> (guard = true -> x <> Some n).
Proof.
  destruct guard; simpl.
  - rewrite <- strict_eq_true. destruct (strict_eq x n); intuition congruence.
  - intuition congruence.
Qed.

Lemma row_dup_false (g : Grid Z) (row col : nat) (num : Z) :
  row_dup g row col num = false <->
  forall x, x < 9 -> x <> col -> cell g row x <> Some num.
Proof.
  unfold row_dup. rewrite existsb_seq_false.
  split; intros H x Hx.
  - intro Hne. apply (proj1 (guarded_eq_false _ _ _) (H x Hx)).
    apply negb_true_iff. now apply Nat.eqb_neq.
  - apply guarded_eq_false. intro Hg. apply H; [assumption|].
    apply Nat.eqb_neq. now apply negb_true_iff.
Qed.

Lemma col_dup_false (g : Grid Z) (row col : nat) (num : Z) :
  col_dup g row col num = false <->
  forall x, x < 9 -> x <> row -> cell g x col <> Some num.
Proof.
  unfold col_dup. rewrite existsb_seq_false.
  split; intros H x Hx.
  - intro Hne. apply (proj1 (guarded_eq_false _ _ _) (H x Hx)).
    apply negb_true_iff. now apply Nat.eqb_neq.
  - apply guarded_eq_false. intro Hg. apply H; [assumption|].
    apply Nat.eqb_neq. now apply negb_true_iff.
Qed.

Lemma box_dup_false (g : Grid Z) (row col : nat) (num : Z) :
  box_dup g row col num = false <->
  forall i j, i < 3 -> j < 3 ->
    row - row mod 3 + i <> row \/ col - col mod 3 + j <> col ->
    cell g (row - row mod 3 + i) (col - col mod 3 + j) <> Some num.
Proof.
  unfold box_dup. rewrite existsb_seq_false.
  split.
  - intros H i j Hi Hj Hne.
    specialize (H i Hi). rewrite existsb_seq_false in H.
    apply (proj1 (guarded_eq_false _ _ _) (H j Hj)).
    apply orb_true_iff. rewrite !negb_true_iff, !Nat.eqb_neq. assumption.
  - intros H i Hi. apply existsb_seq_false. intros j Hj.
    apply guarded_eq_false. intro Hg. apply H; try assumption.
    apply orb_true_iff in Hg. now rewrite !negb_true_iff, !Nat.eqb_neq in Hg.
Qed.

Lemma has_zero_false (g : Grid Z) :
  has_zero g = false <->
  forall r c, r < 9 -> c < 9 -> cell g r c <> Some 0%Z.
Proof.
  unfold has_zero. rewrite existsb_seq_false.
  split.
  - intros H r c Hr Hc. specialize (H r Hr).
    rewrite existsb_seq_false in H. specialize (H c Hc).
    rewrite <- strict_eq_true. now rewrite H.
  - intros H r Hr. apply existsb_seq_false. intros c Hc.
    specialize (H r c Hr Hc). rewrite <- strict_eq_true in H.
    now destruct (strict_eq (cell g r c) 0).
Qed.

Lemma cell_any_error (e : Grid bool) (r c : nat) :
  cell e r c = Some true -> any_error e = true.
Proof.
  unfold cell, row_at, JsArray.get, any_error. intro H.
  destruct (nth_error e r) as [x|] eqn:Er; [|discriminate].
  destruct (nth_error x c) as [[b|]|] eqn:Ec; try discriminate.
  inversion H. subst b.
  apply existsb_exists. exists x. split; [eapply nth_error_In; eauto|].
  apply existsb_exists. exists (Some true).
  split; [eapply nth_error_In; eauto | reflexivity].
Qed.

Lemma any_error_false (e : Grid bool) :
  any_error e = false <-> forall r c, cell e r c <> Some true.
Proof.
  split.
  - intros H r c Hc. apply cell_any_error in Hc. congruence.
  - intro H. destruct (any_error e) eqn:E; [|reflexivity].
    unfold any_error in E. apply existsb_exists in E.
    destruct E as [x [Hx E]]. apply existsb_exists in E.
    destruct E as [[b|] [Hb E]]; [|discriminate]. subst b.
    apply In_nth_error in Hx. destruct Hx as [r Hr].
    apply In_nth_error in Hb. destruct Hb as [c Hc].
    exfalso. apply (H r c). unfold cell, row_at, JsArray.get.
    now rewrite Hr, Hc.
Qed.

(** ** Transposition *)

Lemma transpose_length (g : Grid Z) : length (transpose g) = 9.
Proof. reflexivity. Qed.

Lemma cell_transpose (g : Grid Z) (r c : nat) :
  r < 9 -> c < 9 -> cell (transpose g) c r = cell g r c.
Proof.
  intros Hr Hc. unfold transpose, cell at 1, row_at, JsArray.get.
  rewrite nth_error_map.
  rewrite (nth_error_nth' (seq 0 9) 0) by (rewrite length_seq; assumption).
  rewrite seq_nth by assumption. cbn [option_map Nat.add].
  rewrite nth_error_map.
  rewrite (nth_error_nth' (seq 0 9) 0) by (rewrite length_seq; assumption).
  rewrite seq_nth by assumption. cbn [option_map Nat.add].
  destruct (cell g r c); reflexivity.
Qed.

Lemma dup_iff_eq (a b : bool) : (a = false <-> b = false) -> a = b.
Proof. destruct a, b; intuition congruence. Qed.

Lemma row_dup_transpose (g : Grid Z) (row col : nat) (num : Z) :
  row < 9 -> col < 9 ->
  row_dup (transpose g) col row num = col_dup g row col num.
Proof.
  intros Hr Hc. apply dup_iff_eq. rewrite row_dup_false, col_dup_false.
  split; intros H x Hx Hne.
  - rewrite <- cell_transpose by assumption. now apply H.
  - rewrite cell_transpose by assumption. now apply H.
Qed.

Lemma col_dup_transpose (g : Grid Z) (row col : nat) (num : Z) :
  row < 9 -> col < 9 ->
  col_dup (transpose g) col row num = row_dup g row col num.
Proof.
  intros Hr Hc. apply dup_iff_eq. rewrite row_dup_false, col_dup_false.
  split; intros H x Hx Hne.
  - rewrite <- cell_transpose by assumption. now apply H.
  - rewrite cell_transpose by assumption. now apply H.
Qed.

Lemma box_dup_transpose (g : Grid Z) (row col : nat) (num : Z) :
  row < 9 -> col < 9 ->
  box_dup (transpose g) col row num = box_dup g row col num.
Proof.
  intros Hr Hc. apply dup_iff_eq. rewrite !box_dup_false.
  split; intros H i j Hi Hj Hne.
  - rewrite <- cell_transpose by (apply box_start_bound; assumption).
    apply H; tauto.
  - rewrite cell_transpose by (apply box_start_bound; assumption).
    apply H; tauto.
Qed.

Lemma isValidMove_transpose (g : Grid Z) (row col : nat) (num : Z) :
  9 <= length g -> row < 9 -> col < 9 ->
  isValidMove (transpose g) col row num = isValidMove g row col num.
Proof.
  intros Hg Hr Hc.
  rewrite !isValidMove_closed by (rewrite ?transpose_length; lia).
  rewrite row_dup_transpose, col_dup_transpose, box_dup_transpose
    by assumption.
  f_equal. f_equal. f_equal. apply orb_comm.
Qed.

(** ** The order of the scans *)

Lemma run_scan_closed (s : Scan) (g : Grid Z) (row col : nat) (num : Z) :
  9 <= length g -> row < 9 ->
  run_scan s g row col num =
  if dup_of s g row col num then Return false else Next.
Proof.
  intros Hg Hr. destruct s; simpl.
  - apply row_scan_closed. lia.
  - now apply col_scan_closed.
  - now apply box_scan_closed.
Qed.

Lemma isValidMove_in_order_closed (order : list Scan) (g : Grid Z)
    (row col : nat) (num : Z) :
  9 <= length g -> row < 9 ->
  isValidMove_in_order order g row col num =
  Done (negb (existsb (fun s => dup_of s g row col num) order)).
Proof.
  intros Hg Hr. unfold isValidMove_in_order.
  induction order as [|s order IH]; simpl.
  - reflexivity.
  - rewrite run_scan_closed by assumption.
    destruct (dup_of s g row col num); simpl; [reflexivity | exact IH].
Qed.

Lemma existsb_Permutation {A} (p : A -> bool) (l l' : list A) :
  Permutation l l' -> existsb p l = existsb p l'.
Proof.
  intro H. induction H; simpl.
  - reflexivity.
  - now rewrite IHPermutation.
  - destruct (p x), (p y); reflexivity.
  - congruence.
Qed.

(** ** The click handler *)

(** A click on a cell that is not editable, or when the game is over, does
    nothing: no update is scheduled and no signal is sent.  This includes
    the case where [initialGrid[row]] is undefined and the guard raises. *)
Lemma handleCellClick_ignored (st : State) (over : bool) (row col : nat)
    (w : World) :
  over = true \/ cell (initialGrid st) row col <> Some 0%Z ->
  snd (handleCellClick st over row col w) = w.
Proof.
  intro H. unfold handleCellClick, bind, lift, read, cell in *.
  destruct (row_at (initialGrid st) row) as [r|]; [|reflexivity].
  destruct (strict_eq (JsArray.get r col) 0) eqn:E; simpl.
  - apply strict_eq_true in E. destruct H as [->|H]; [reflexivity|].
    contradiction.
  - reflexivity.
Qed.

(** A click on an editable cell of a board while the game is not over. *)
Lemma handleCellClick_editable (st : State) (row col : nat) :
  board_state st -> row < 9 -> col < 9 ->
  cell (initialGrid st) row col = Some 0%Z ->
  exists newGrid newErrors newCorrectCells,
    let num := selectedNumber st in
    let invalid := invalid_move newGrid row col num in
    write (grid st) row col num = Done newGrid /\
    write (errors st) row col invalid = Done newErrors /\
    write (correctCells st) row col (negb invalid) = Done newCorrectCells /\
    run (handleCellClick st false row col) st =
    (mkState newGrid (initialGrid st) newErrors newCorrectCells
             num (Some (row, col)) (highlightedNumber st),
     (if invalid then [OnError; ToastError num] else [ToastSuccess num]) ++
     (if negb (has_zero newGrid) && negb (any_error newErrors)
      then [OnSolved] else [])).
Proof.
  intros (Hg & Hi & He & Hc) Hrow Hcol Hinit.
  pose proof (is_9x9_length _ Hg) as Lg.
  pose proof (is_9x9_length _ Hi) as Li.
  pose proof (is_9x9_length _ He) as Le.
  pose proof (is_9x9_length _ Hc) as Lc.
  destruct (@write_Done _ (grid st) row col (selectedNumber st))
    as [newGrid Wg]; [lia|].
  pose proof (write_length _ _ _ _ _ Wg) as Lg'.
  set (invalid := invalid_move newGrid row col (selectedNumber st)).
  destruct (@write_Done _ (errors st) row col invalid)
    as [newErrors We]; [lia|].
  destruct (@write_Done _ (correctCells st) row col (negb invalid))
    as [newCorrectCells Wc]; [lia|].
  exists newGrid, newErrors, newCorrectCells. cbv zeta. fold invalid.
  repeat split; try assumption.
  unfold run, handleCellClick, bind, lift.
  rewrite read_cell by lia. rewrite Hinit. simpl.
  rewrite Wg.
  rewrite isSolved_closed by lia.
  unfold invalid, invalid_move in *.
  destruct (selectedNumber st =? 0)%Z eqn:Ez; simpl in *.
  - rewrite We, Wc. simpl.
    destruct (negb (has_zero newGrid) && negb (any_error newErrors));
      reflexivity.
  - rewrite isValidMove_closed by lia. simpl.
    destruct (row_dup newGrid row col (selectedNumber st)
              || col_dup newGrid row col (selectedNumber st)
              || box_dup newGrid row col (selectedNumber st));
      simpl in *; rewrite We, Wc; simpl;
      destruct (negb (has_zero newGrid) && negb (any_error newErrors));
      reflexivity.
Qed.

(** ** The move validator *)

(** C3.  On a 9x9 grid with [row] and [col] in 0..8, [isValidMove] returns
    (it does not raise), and it returns [true] exactly when [digit] occurs
    neither in the target row at another column, nor in the target column
    at another row, nor in the 3x3 box whose first cell is
    [(row - row % 3, col - col % 3)] at a cell other than [(row, col)].
    The statement needs neither that [digit] is in 1..9 nor that it is
    already written at [(row, col)]: the target cell is skipped by the three
    scans. *)
Theorem isValidMove_iff_no_duplicate (g : Grid Z) (row col : nat) (digit : Z) :
  is_9x9 g -> row < 9 -> col < 9 ->
  exists b,
    isValidMove g row col digit = Done b /\
    (b = true <->
     (forall x, x < 9 -> x <> col -> cell g row x <> Some digit) /\
     (forall x, x < 9 -> x <> row -> cell g x col <> Some digit) /\
     (forall i j, i < 3 -> j < 3 ->
        row - row mod 3 + i <> row \/ col - col mod 3 + j <> col ->
        cell g (row - row mod 3 + i) (col - col mod 3 + j) <> Some digit)).
Proof.
  intros Hg Hrow Hcol. pose proof (is_9x9_length _ Hg) as L.
  eexists. split; [apply isValidMove_closed; lia|].
  rewrite <- row_dup_false, <- col_dup_false, <- box_dup_false.
  destruct (row_dup g row col digit), (col_dup g row col digit),
           (box_dup g row col digit); simpl; intuition congruence.
Qed.

Lemma isValidMove_iff_no_duplicate_witness :
  let g := grid_of_rows (sudokuPuzzles easy) in
  is_9x9 g /\ 0 < 9 /\ 2 < 9 /\
  exists b,
    isValidMove g 0 2 4 = Done b /\
    (b = true <->
     (forall x, x < 9 -> x <> 2 -> cell g 0 x <> Some 4%Z) /\
     (forall x, x < 9 -> x <> 0 -> cell g x 2 <> Some 4%Z) /\
     (forall i j, i < 3 -> j < 3 ->
        0 - 0 mod 3 + i <> 0 \/ 2 - 2 mod 3 + j <> 2 ->
        cell g (0 - 0 mod 3 + i) (2 - 2 mod 3 + j) <> Some 4%Z)).
Proof.
  cbv zeta. split; [reflexivity|]. split; [lia|]. split; [lia|].
  apply (@isValidMove_iff_no_duplicate
           (grid_of_rows (sudokuPuzzles easy)) 0 2 4);
    [reflexivity | lia | lia].
Defined.

(** C8.  On a 9x9 grid with [row] and [col] in 0..8, validating
    [(col, row)] on the transposed grid gives the same result as validating
    [(row, col)] on the grid, and running the row, column and box scans in
    any of their orders gives the result of [isValidMove]. *)
Theorem isValidMove_transpose_and_scan_order
    (g : Grid Z) (row col : nat) (d : Z) :
  is_9x9 g -> row < 9 -> col < 9 ->
  isValidMove (transpose g) col row d = isValidMove g row col d /\
  forall order,
    Permutation order [RowScan; ColScan; BoxScan] ->
    isValidMove_in_order order g row col d = isValidMove g row col d.
Proof.
  intros Hg Hrow Hcol. pose proof (is_9x9_length _ Hg) as L. split.
  - apply isValidMove_transpose; lia.
  - intros order Hperm.
    rewrite isValidMove_in_order_closed by lia.
    rewrite (existsb_Permutation _ _ _ Hperm).
    rewrite isValidMove_closed by lia. simpl.
    now rewrite orb_false_r, orb_assoc.
Qed.

Lemma isValidMove_transpose_and_scan_order_witness :
  let g := grid_of_rows (sudokuPuzzles easy) in
  is_9x9 g /\ 0 < 9 /\ 2 < 9 /\
  isValidMove (transpose g) 2 0 5 = isValidMove g 0 2 5 /\
  forall order,
    Permutation order [RowScan; ColScan; BoxScan] ->
    isValidMove_in_order order g 0 2 5 = isValidMove g 0 2 5.
Proof.
  cbv zeta. split; [reflexivity|]. split; [lia|]. split; [lia|].
  apply (@isValidMove_transpose_and_scan_order
           (grid_of_rows (sudokuPuzzles easy)) 0 2 5);
    [reflexivity | lia | lia].
Defined.

(** C7.  On the freshly loaded easy puzzle: placing 4 at row 0, column 2 is
    accepted (the success toast is the only signal) and marks the cell
    correct; placing 5 there instead is rejected ([onError] and the error
    toast), the row scan stopping at the 5 of row 0, column 0. *)
Theorem easy_puzzle_row0_col2 :
  let start := mount (mkProps easy false) in
  (let (c, sigs) := place start (0, 2, 4%Z) in
   sigs = [ToastSuccess 4] /\
   cell (grid (state c)) 0 2 = Some 4%Z /\
   cell (errors (state c)) 0 2 = Some false /\
   cell (correctCells (state c)) 0 2 = Some true) /\
  (let (c, sigs) := place start (0, 2, 5%Z) in
   sigs = [OnError; ToastError 5] /\
   cell (grid (state c)) 0 2 = Some 5%Z /\
   cell (errors (state c)) 0 2 = Some true /\
   cell (correctCells (state c)) 0 2 = Some false /\
   cell (grid (state start)) 0 0 = Some 5%Z /\
   row_scan (grid (state c)) 0 2 5 = Return false).
Proof. vm_compute. repeat split. Qed.

(** ** Terminal sessions *)

(** C1, as stated, fails for the Solved outcome.  The easy puzzle is filled
    with its solution, [onSolved] is called at the last placement and the
    game is not over; the next click, on row 0 column 2 with the digit 1
    still selected, replaces the 4 of that cell by 1, sets its error flag
    and calls [onError]. *)
Lemma click_after_solved_is_processed :
  let start := mount (mkProps easy false) in
  let moves := solution_moves (solutions easy)
                 (empty_cells (sudokuPuzzles easy)) in
  let (c, log) := play start moves in
  outcome c log = Solved /\
  selectedNumber (state c) = 1%Z /\
  cell (grid (state c)) 0 2 = Some 4%Z /\
  cell (errors (state c)) 0 2 = Some false /\
  let (c', sigs) := dispatch c (CellClick 0 2) in
  cell (grid (state c')) 0 2 = Some 1%Z /\
  cell (errors (state c')) 0 2 = Some true /\
  cell (correctCells (state c')) 0 2 = Some false /\
  sigs = [OnError; ToastError 1].
Proof. vm_compute. repeat split. Qed.

(** C1, amended.  When the session outcome is GameOver (the [gameOver] prop
    is true), a click on any cell leaves the whole component as it was and
    sends no signal, whatever the row, the column and the selected digit. *)
Theorem click_when_game_over_is_noop
    (c : Component) (log : list (list Signal)) (row col : nat) :
  outcome c log = GameOver ->
  dispatch c (CellClick row col) = (c, []).
Proof.
  unfold outcome. intro H.
  assert (Hover : gameOver (props c) = true).
  { destruct (gameOver (props c)); [reflexivity|].
    destruct (existsb (existsb is_OnSolved) log); discriminate. }
  destruct c as [p st]. simpl in *. unfold run.
  rewrite handleCellClick_ignored by (left; assumption).
  reflexivity.
Qed.

Lemma click_when_game_over_is_noop_witness :
  let c := mount (mkProps hard true) in
  outcome c [] = GameOver /\
  dispatch c (CellClick 0 0) = (c, []).
Proof.
  cbv zeta. split; [reflexivity|].
  apply (@click_when_game_over_is_noop (mount (mkProps hard true)) [] 0 0).
  reflexivity.
Defined.

(** ** Placements on an editable cell *)

(** C2.  After a placement on an editable cell of a board, [onSolved] is
    called exactly when no cell of the new grid is 0 and no cell of the new
    error flags is set.  Nothing else enters the decision: the digits of
    the grid are not checked against one another again. *)
Theorem onSolved_iff_full_and_no_error_flag (st : State) (row col : nat) :
  board_state st -> row < 9 -> col < 9 ->
  cell (initialGrid st) row col = Some 0%Z ->
  let out := run (handleCellClick st false row col) st in
  In OnSolved (snd out) <->
  (forall r c, cell (grid (fst out)) r c <> Some 0%Z) /\
  (forall r c, cell (errors (fst out)) r c <> Some true).
Proof.
  intros Hb Hrow Hcol Hinit.
  destruct (handleCellClick_editable st row col Hb Hrow Hcol Hinit)
    as (newGrid & newErrors & newCorrect & Wg & We & Wc & Hrun).
  cbv zeta in *. rewrite Hrun. cbn [fst snd grid errors].
  destruct Hb as (Hg & _).
  assert (Hg' : is_9x9 newGrid) by (eapply is_9x9_write; eauto).
  rewrite <- any_error_false.
  assert (Hz : has_zero newGrid = false <->
               forall r c, cell newGrid r c <> Some 0%Z).
  { rewrite has_zero_false. split; intros H r c.
    - destruct (Nat.lt_ge_cases r 9) as [Hr|Hr];
        [destruct (Nat.lt_ge_cases c 9) as [Hc|Hc]|].
      + now apply H.
      + rewrite (@is_9x9_outside _ newGrid r c Hg') by tauto. discriminate.
      + rewrite (@is_9x9_outside _ newGrid r c Hg') by tauto. discriminate.
    - intros _ _. apply H. }
  rewrite <- Hz. rewrite in_app_iff.
  destruct (has_zero newGrid), (any_error newErrors); simpl;
    destruct (invalid_move newGrid row col (selectedNumber st)); simpl;
    intuition congruence.
Qed.

Lemma onSolved_iff_full_and_no_error_flag_witness :
  let st := state (mount (mkProps easy false)) in
  board_state st /\ 0 < 9 /\ 2 < 9 /\
  cell (initialGrid st) 0 2 = Some 0%Z /\
  let out := run (handleCellClick st false 0 2) st in
  (In OnSolved (snd out) <->
   (forall r c, cell (grid (fst out)) r c <> Some 0%Z) /\
   (forall r c, cell (errors (fst out)) r c <> Some true)).
Proof.
  cbv zeta.
  split; [repeat split; reflexivity|].
  split; [lia|]. split; [lia|]. split; [reflexivity|].
  apply (@onSolved_iff_full_and_no_error_flag
           (state (mount (mkProps easy false))) 0 2);
    [repeat split; reflexivity | lia | lia | reflexivity].
Defined.

(** The solved check trusts the flags: a full board with two 1s in row 0
    and no error flag counts as solved.  (Such a state needs a flag that
    was never set; it shows what the check reads, not a state the handler
    produces by itself.) *)
Example solved_check_reads_flags_only :
  let ones := JsArray.of_list (repeat 1%Z 9) in
  let initial := JsArray.set ones 0 0%Z :: repeat ones 8 in
  let st := mkState initial initial all_false all_false 2%Z None None in
  let out := run (handleCellClick st false 0 0) st in
  snd out = [ToastSuccess 2; OnSolved] /\
  cell (grid (fst out)) 0 1 = Some 1%Z /\
  cell (grid (fst out)) 0 2 = Some 1%Z.
Proof. vm_compute. repeat split. Qed.

Lemma invalid_move_spec (g : Grid Z) (row col : nat) (num : Z) :
  9 <= length g -> row < 9 ->
  exists valid,
    isValidMove g row col num = Done valid /\
    invalid_move g row col num = negb (num =? 0)%Z && negb valid.
Proof.
  intros Hg Hrow. eexists. split; [now apply isValidMove_closed|].
  unfold invalid_move. now rewrite negb_involutive.
Qed.

(** C4.  A placement of a non-zero digit [d] on an editable cell of a
    board, game not over.  The digit is committed in both cases.  If
    [isValidMove] rejects the grid holding [d], the error flag of the cell
    is set, its correct flag is cleared, and the signals are [onError]
    followed by the error toast.  If it accepts, the error flag is cleared,
    the correct flag is set, and the first signal is the success toast,
    followed by [onSolved] or by nothing. *)
Theorem placement_commits_and_flags (st : State) (row col : nat) :
  board_state st -> row < 9 -> col < 9 ->
  cell (initialGrid st) row col = Some 0%Z ->
  selectedNumber st <> 0%Z ->
  let d := selectedNumber st in
  let out := run (handleCellClick st false row col) st in
  cell (grid (fst out)) row col = Some d /\
  exists valid,
    isValidMove (grid (fst out)) row col d = Done valid /\
    if valid then
      cell (errors (fst out)) row col = Some false /\
      cell (correctCells (fst out)) row col = Some true /\
      (snd out = [ToastSuccess d] \/ snd out = [ToastSuccess d; OnSolved])
    else
      cell (errors (fst out)) row col = Some true /\
      cell (correctCells (fst out)) row col = Some false /\
      snd out = [OnError; ToastError d].
Proof.
  intros Hb Hrow Hcol Hinit Hd.
  destruct (handleCellClick_editable st row col Hb Hrow Hcol Hinit)
    as (newGrid & newErrors & newCorrect & Wg & We & Wc & Hrun).
  cbv zeta in *. rewrite Hrun. cbn [fst snd grid errors correctCells].
  destruct Hb as (Hg & _). pose proof (is_9x9_length _ Hg) as L.
  pose proof (write_length _ _ _ _ _ Wg) as L'.
  split.
  { rewrite (cell_write _ _ _ _ _ row col Wg). now rewrite !Nat.eqb_refl. }
  destruct (@invalid_move_spec newGrid row col (selectedNumber st))
    as (valid & Hvalid & Hinv); [lia | lia |].
  exists valid. split; [assumption|].
  apply Z.eqb_neq in Hd. rewrite Hd in Hinv. simpl in Hinv.
  rewrite Hinv in *.
  rewrite (cell_write _ _ _ _ _ row col We), (cell_write _ _ _ _ _ row col Wc).
  rewrite !Nat.eqb_refl. simpl.
  destruct valid; simpl.
  - repeat split.
    destruct (negb (has_zero newGrid) && negb (any_error newErrors)); auto.
  - repeat split.
    assert (E : any_error newErrors = true).
    { apply (@cell_any_error newErrors row col).
      rewrite (cell_write _ _ _ _ _ row col We). now rewrite !Nat.eqb_refl. }
    rewrite E, andb_false_r. reflexivity.
Qed.

Lemma placement_commits_and_flags_witness :
  let st := state (fst (dispatch (mount (mkProps easy false)) (NumberSelect 5))) in
  board_state st /\ 0 < 9 /\ 2 < 9 /\
  cell (initialGrid st) 0 2 = Some 0%Z /\
  selectedNumber st <> 0%Z /\
  let d := selectedNumber st in
  let out := run (handleCellClick st false 0 2) st in
  cell (grid (fst out)) 0 2 = Some d /\
  exists valid,
    isValidMove (grid (fst out)) 0 2 d = Done valid /\
    if valid then
      cell (errors (fst out)) 0 2 = Some false /\
      cell (correctCells (fst out)) 0 2 = Some true /\
      (snd out = [ToastSuccess d] \/ snd out = [ToastSuccess d; OnSolved])
    else
      cell (errors (fst out)) 0 2 = Some true /\
      cell (correctCells (fst out)) 0 2 = Some false /\
      snd out = [OnError; ToastError d].
Proof.
  cbv zeta.
  split; [repeat split; reflexivity|].
  split; [lia|]. split; [lia|]. split; [reflexivity|].
  split; [discriminate|].
  apply (@placement_commits_and_flags
           (state (fst (dispatch (mount (mkProps easy false)) (NumberSelect 5))))
           0 2);
    [repeat split; reflexivity | lia | lia | reflexivity | discriminate].
Defined.

(** C9.  A placement on an editable cell of a board, game not over,
    whatever the cell held and whatever its flags were: afterwards the cell
    holds the selected number, its error flag is the outcome of the
    handler's test on the new grid and its correct flag is the opposite.
    In particular, when the number is accepted the error flag of the cell
    is cleared, also when it was set before. *)
Theorem placement_overwrites_and_recomputes (st : State) (row col : nat) :
  board_state st -> row < 9 -> col < 9 ->
  cell (initialGrid st) row col = Some 0%Z ->
  let d := selectedNumber st in
  let out := run (handleCellClick st false row col) st in
  cell (grid (fst out)) row col = Some d /\
  exists valid,
    isValidMove (grid (fst out)) row col d = Done valid /\
    cell (errors (fst out)) row col = Some (negb (d =? 0)%Z && negb valid) /\
    cell (correctCells (fst out)) row col
      = Some (negb (negb (d =? 0)%Z && negb valid)) /\
    (valid = true -> cell (errors (fst out)) row col = Some false).
Proof.
  intros Hb Hrow Hcol Hinit.
  destruct (handleCellClick_editable st row col Hb Hrow Hcol Hinit)
    as (newGrid & newErrors & newCorrect & Wg & We & Wc & Hrun).
  cbv zeta in *. rewrite Hrun. cbn [fst snd grid errors correctCells].
  destruct Hb as (Hg & _). pose proof (is_9x9_length _ Hg) as L.
  pose proof (write_length _ _ _ _ _ Wg) as L'.
  split.
  { rewrite (cell_write _ _ _ _ _ row col Wg). now rewrite !Nat.eqb_refl. }
  destruct (@invalid_move_spec newGrid row col (selectedNumber st))
    as (valid & Hvalid & Hinv); [lia | lia |].
  exists valid. split; [assumption|].
  rewrite Hinv in *.
  rewrite (cell_write _ _ _ _ _ row col We), (cell_write _ _ _ _ _ row col Wc).
  rewrite !Nat.eqb_refl. simpl.
  repeat split. intros ->. now rewrite andb_false_r.
Qed.

Lemma placement_overwrites_and_recomputes_witness :
  let rejected :=
    fst (play (mount (mkProps easy false)) [(0, 2, 5%Z)]) in
  let st := state (fst (dispatch rejected (NumberSelect 4))) in
  cell (grid st) 0 2 = Some 5%Z /\
  cell (errors st) 0 2 = Some true /\
  board_state st /\ 0 < 9 /\ 2 < 9 /\
  cell (initialGrid st) 0 2 = Some 0%Z /\
  let d := selectedNumber st in
  let out := run (handleCellClick st false 0 2) st in
  cell (grid (fst out)) 0 2 = Some d /\
  exists valid,
    isValidMove (grid (fst out)) 0 2 d = Done valid /\
    cell (errors (fst out)) 0 2 = Some (negb (d =? 0)%Z && negb valid) /\
    cell (correctCells (fst out)) 0 2
      = Some (negb (negb (d =? 0)%Z && negb valid)) /\
    (valid = true -> cell (errors (fst out)) 0 2 = Some false).
Proof.
  cbv zeta.
  split; [reflexivity|]. split; [reflexivity|].
  split; [repeat split; reflexivity|].
  split; [lia|]. split; [lia|]. split; [reflexivity|].
  apply (@placement_overwrites_and_recomputes
           (state (fst (dispatch
              (fst (play (mount (mkProps easy false)) [(0, 2, 5%Z)]))
              (NumberSelect 4))))
           0 2);
    [repeat split; reflexivity | lia | lia | reflexivity].
Defined.

Lemma write_true_any_error (e e' : Grid bool) (row col : nat) :
  write e row col true = Done e' -> any_error e' = true.
Proof.
  intro W. apply (@cell_any_error e' row col).
  rewrite (cell_write _ _ _ _ _ row col W). now rewrite !Nat.eqb_refl.
Qed.

(** C10.  In any state, when the handler's test judges the placement
    invalid, the call does not send [onSolved]; and when it got as far as
    calling [onError], the error flag of [(row, col)] is set in the new
    flags, which makes [newErrors.some(...)] true. *)
Theorem invalid_placement_never_solves
    (st : State) (over : bool) (row col : nat) :
  judged_invalid st row col = true ->
  let out := run (handleCellClick st over row col) st in
  ~ In OnSolved (snd out) /\
  (In OnError (snd out) ->
     cell (errors (fst out)) row col = Some true /\
     any_error (errors (fst out)) = true).
Proof.
  unfold judged_invalid. intro H.
  destruct (write (grid st) row col (selectedNumber st))
    as [newGrid|] eqn:Wg; [|discriminate].
  apply andb_true_iff in H. destruct H as [Hd Hv].
  destruct (isValidMove newGrid row col (selectedNumber st))
    as [valid|] eqn:Ev; [|discriminate].
  apply negb_true_iff in Hv. subst valid.
  cbv zeta. unfold run, handleCellClick, bind, lift.
  destruct (read (initialGrid st) row col) as [x|];
    [|simpl; intuition].
  destruct (negb (strict_eq x 0) || over); [simpl; intuition|].
  cbn [setSelectedCell update]. rewrite Wg, Hd. rewrite Ev. cbn [negb ret].
  destruct (write (errors st) row col true) as [newErrors|] eqn:We;
    [|simpl; intuition].
  destruct (write (correctCells st) row col false) as [newCorrect|];
    [|simpl; intuition].
  pose proof (write_true_any_error _ _ _ _ We) as E.
  pose proof (cell_write _ _ _ _ _ row col We) as C.
  rewrite !Nat.eqb_refl in C. simpl in C.
  destruct (isSolved newGrid) as [solved|]; simpl.
  - rewrite E, andb_false_r. simpl. intuition discriminate.
  - intuition discriminate.
Qed.

Lemma invalid_placement_never_solves_witness :
  let st := state (fst (dispatch (mount (mkProps easy false)) (NumberSelect 5))) in
  judged_invalid st 0 2 = true /\
  let out := run (handleCellClick st false 0 2) st in
  ~ In OnSolved (snd out) /\
  (In OnError (snd out) ->
     cell (errors (fst out)) 0 2 = Some true /\
     any_error (errors (fst out)) = true).
Proof.
  cbv zeta. split; [reflexivity|].
  apply (@invalid_placement_never_solves
           (state (fst (dispatch (mount (mkProps easy false)) (NumberSelect 5))))
           false 0 2).
  reflexivity.
Defined.

(** ** Prefilled cells *)

Lemma board_state_loaded (d : Difficulty) (st : State) :
  board_state (fst (run (load_effect d) st)).
Proof. destruct d; repeat split; reflexivity. Qed.

Lemma puzzle_cells (d : Difficulty) (r c : nat) :
  r < 9 -> c < 9 ->
  cell (grid_of_rows (sudokuPuzzles d)) r c
  = Some (digit_at (sudokuPuzzles d) (r, c)).
Proof.
  intros Hr Hc.
  do 9 (destruct r as [|r]; [
    do 9 (destruct c as [|c]; [destruct d; reflexivity|]); lia |]).
  lia.
Qed.

Lemma session_invariant_mount (p : Props) : session_invariant (mount p).
Proof.
  split; [apply board_state_loaded|]. split; [reflexivity|].
  intros r c v H _. exact H.
Qed.

Lemma editable_in_range (st : State) (row col : nat) (v : Z) :
  is_9x9 (initialGrid st) ->
  cell (initialGrid st) row col = Some v -> row < 9 /\ col < 9.
Proof.
  intros Hi H.
  destruct (Nat.lt_ge_cases row 9) as [Hr|Hr];
    [destruct (Nat.lt_ge_cases col 9) as [Hc|Hc]; [tauto|]|];
    rewrite (is_9x9_outside _ row col Hi) in H by tauto; discriminate.
Qed.

(** What a click does to a board: nothing, or one write on an editable
    cell. *)
Lemma click_preserves (st : State) (over : bool) (row col : nat) :
  board_state st -> prefilled_kept st ->
  let st' := fst (run (handleCellClick st over row col) st) in
  board_state st' /\ initialGrid st' = initialGrid st /\ prefilled_kept st'.
Proof.
  intros Hb Hk. cbv zeta.
  assert (Hcases : (over = true \/ cell (initialGrid st) row col <> Some 0%Z)
                   \/ (over = false /\ cell (initialGrid st) row col = Some 0%Z)).
  { destruct over; [tauto|].
    destruct (cell (initialGrid st) row col) as [v|]; [|left; right; discriminate].
    destruct (Z.eq_dec v 0) as [->|Hv]; [tauto|].
    left. right. congruence. }
  destruct Hcases as [Hign|[-> Hinit]].
  - unfold run. rewrite handleCellClick_ignored by assumption. simpl. auto.
  - destruct Hb as (Hg & Hi & He & Hc).
    destruct (editable_in_range st row col 0 Hi Hinit) as [Hrow Hcol].
    destruct (handleCellClick_editable st row col
                (conj Hg (conj Hi (conj He Hc))) Hrow Hcol Hinit)
      as (newGrid & newErrors & newCorrect & Wg & We & Wc & Hrun).
    cbv zeta in *. rewrite Hrun. cbn [fst].
    split; [|split; [reflexivity|]].
    + unfold board_state. cbn [grid initialGrid errors correctCells].
      split; [exact (is_9x9_write _ _ _ _ _ Hg Hcol Wg)|].
      split; [exact Hi|].
      split; [exact (is_9x9_write _ _ _ _ _ He Hcol We)|].
      exact (is_9x9_write _ _ _ _ _ Hc Hcol Wc).
    + intros r c v Hv Hne. cbn [grid initialGrid] in *.
      rewrite (cell_write _ _ _ _ _ r c Wg).
      destruct (Nat.eqb_spec r row) as [->|Hr]; simpl; [|auto].
      destruct (Nat.eqb_spec c col) as [->|Hcc]; simpl; [|auto].
      exfalso. apply Hne. rewrite Hinit in Hv. now inversion Hv.
Qed.

Lemma dispatch_preserves (c : Component) (e : Event) :
  session_invariant c -> session_invariant (fst (dispatch c e)).
Proof.
  intros (Hb & Hinit & Hk). destruct c as [p st]. cbn [state props] in *.
  unfold session_invariant.
  destruct e as [row col | number | p']; cbn [dispatch fst state props].
  - destruct (click_preserves st (gameOver p) row col Hb Hk) as (Hb' & Hi' & Hk').
    cbv zeta in *.
    split; [exact Hb'|]. split; [rewrite Hi'; exact Hinit | exact Hk'].
  - split; [exact Hb|]. split; [exact Hinit | exact Hk].
  - destruct (Difficulty_eqb (difficulty p') (difficulty p)) eqn:E;
      cbn [fst state props].
    + split; [exact Hb|]. split; [|exact Hk].
      rewrite Hinit. destruct (difficulty p'), (difficulty p);
        try discriminate; reflexivity.
    + split; [apply board_state_loaded|]. split; [reflexivity|].
      intros r cc v H _. exact H.
Qed.

Lemma dispatch_all_preserves (es : list Event) (c : Component) :
  session_invariant c -> session_invariant (fst (dispatch_all c es)).
Proof.
  revert c. induction es as [|e es IH]; intros c Hc; simpl.
  - exact Hc.
  - pose proof (dispatch_preserves c e Hc) as H1.
    destruct (dispatch c e) as [c' sigs]. cbn [fst] in H1.
    specialize (IH c' H1).
    destruct (dispatch_all c' es) as [c'' log]. exact IH.
Qed.

(** C5.  At any moment of a session, that is after any list of events
    (clicks, digit selections, new props) received by a mounted component:
    the initial grid is the puzzle of the current difficulty, and for every
    cell whose initial value is not 0, a click on it changes nothing and
    sends no signal (it is ignored, the handler returns at its guard), and
    the working grid holds the initial value there. *)
Theorem prefilled_cells_are_locked
    (p : Props) (es : list Event) (row col : nat) (v : Z) :
  let c := fst (dispatch_all (mount p) es) in
  cell (initialGrid (state c)) row col = Some v -> v <> 0%Z ->
  initialGrid (state c) = grid_of_rows (sudokuPuzzles (difficulty (props c))) /\
  dispatch c (CellClick row col) = (c, []) /\
  cell (grid (state c)) row col = Some v.
Proof.
  cbv zeta. intros Hv Hne.
  destruct (dispatch_all_preserves es (mount p) (session_invariant_mount p))
    as (Hb & Hinit & Hk).
  split; [exact Hinit|]. split; [|now apply Hk].
  destruct (fst (dispatch_all (mount p) es)) as [q st].
  cbn [dispatch state props] in *. unfold run.
  rewrite handleCellClick_ignored; [reflexivity|].
  right. congruence.
Qed.

Lemma prefilled_cells_are_locked_witness :
  let p := mkProps easy false in
  let es := [NumberSelect 4; CellClick 0 2; NumberSelect 7; CellClick 0 0;
             CellClick 1 1; NewProps (mkProps easy false); CellClick 0 1] in
  let c := fst (dispatch_all (mount p) es) in
  cell (initialGrid (state c)) 0 0 = Some 5%Z /\ 5%Z <> 0%Z /\
  initialGrid (state c) = grid_of_rows (sudokuPuzzles (difficulty (props c))) /\
  dispatch c (CellClick 0 0) = (c, []) /\
  cell (grid (state c)) 0 0 = Some 5%Z.
Proof.
  cbv zeta. split; [reflexivity|]. split; [discriminate|].
  apply (prefilled_cells_are_locked (mkProps easy false)
           [NumberSelect 4; CellClick 0 2; NumberSelect 7; CellClick 0 0;
            CellClick 1 1; NewProps (mkProps easy false); CellClick 0 1]
           0 0 5);
    [reflexivity | discriminate].
Defined.

(** ** Entering the solution *)

Lemma cell_eqb_true (a b : nat * nat) : cell_eqb a b = true <-> a = b.
Proof.
  destruct a as [r c], b as [r' c']. unfold cell_eqb. simpl.
  rewrite andb_true_iff, !Nat.eqb_eq. split; [intros [-> ->]|intros [= -> ->]]; auto.
Qed.

Lemma existsb_cell_eqb (a : nat * nat) (l : list (nat * nat)) :
  existsb (cell_eqb a) l = true <-> In a l.
Proof.
  rewrite existsb_exists. split.
  - intros [b [Hin Hb]]. apply cell_eqb_true in Hb. now subst.
  - intro H. exists a. split; [assumption | now apply cell_eqb_true].
Qed.

Lemma nodupb_sound (l : list (nat * nat)) : nodupb l = true -> NoDup l.
Proof.
  induction l as [|x l IH]; simpl; intro H; constructor;
    apply andb_true_iff in H; destruct H as [Hx Hl].
  - intro Hin. apply existsb_cell_eqb in Hin. rewrite Hin in Hx. discriminate.
  - now apply IH.
Qed.

Lemma all_cells_NoDup : NoDup all_cells.
Proof. apply nodupb_sound. vm_compute. reflexivity. Qed.

Lemma in_all_cells (r c : nat) : In (r, c) all_cells <-> r < 9 /\ c < 9.
Proof.
  unfold all_cells. rewrite in_prod_iff, !in_seq. lia.
Qed.

Lemma in_empty_cells (puzzle : list (list Z)) (r c : nat) :
  In (r, c) (empty_cells puzzle) <->
  r < 9 /\ c < 9 /\ digit_at puzzle (r, c) = 0%Z.
Proof.
  unfold empty_cells. rewrite filter_In, in_all_cells, Z.eqb_eq. tauto.
Qed.

Lemma empty_cells_NoDup (puzzle : list (list Z)) : NoDup (empty_cells puzzle).
Proof. apply NoDup_filter, all_cells_NoDup. Qed.

(** What [is_solution] gives, cell by cell. *)
Lemma solution_cell (puzzle sol : list (list Z)) (r c : nat) :
  is_solution puzzle sol -> r < 9 -> c < 9 ->
  (1 <= digit_at sol (r, c) <= 9)%Z /\
  (digit_at puzzle (r, c) <> 0%Z ->
   digit_at puzzle (r, c) = digit_at sol (r, c)) /\
  (forall r' c', r' < 9 -> c' < 9 -> peers (r, c) (r', c') = true ->
     digit_at sol (r, c) <> digit_at sol (r', c')).
Proof.
  unfold is_solution, is_solutionb. intros H Hr Hc.
  apply andb_true_iff in H. destruct H as [_ H].
  rewrite forallb_forall in H.
  specialize (H (r, c) (proj2 (in_all_cells r c) (conj Hr Hc))).
  apply andb_true_iff in H. destruct H as [H HD].
  apply andb_true_iff in H. destruct H as [H HC].
  apply andb_true_iff in H. destruct H as [HA HB].
  split; [split; now apply Z.leb_le|]. split.
  - intro Hne. apply orb_true_iff in HC. destruct HC as [HC|HC].
    + apply Z.eqb_eq in HC. contradiction.
    + now apply Z.eqb_eq in HC.
  - intros r' c' Hr' Hc' Hp.
    rewrite forallb_forall in HD.
    specialize (HD (r', c') (proj2 (in_all_cells r' c') (conj Hr' Hc'))).
    rewrite Hp in HD. simpl in HD.
    apply negb_true_iff in HD. now apply Z.eqb_neq in HD.
Qed.

Lemma box_same_block (n i : nat) :
  n < 9 -> i < 3 -> (n - n mod 3 + i) / 3 = n / 3.
Proof.
  intros Hn Hi.
  do 9 (destruct n as [|n]; [
    do 3 (destruct i as [|i]; [reflexivity|]); lia |]).
  lia.
Qed.

Lemma peers_row (row col x : nat) :
  x <> col -> peers (row, col) (row, x) = true.
Proof.
  intro H. unfold peers. simpl. rewrite Nat.eqb_refl. simpl.
  apply Nat.eqb_neq in H. rewrite Nat.eqb_sym in H. now rewrite H.
Qed.

Lemma peers_col (row col x : nat) :
  x <> row -> peers (row, col) (x, col) = true.
Proof.
  intro H. unfold peers. simpl. rewrite (Nat.eqb_refl col).
  destruct (Nat.eqb_spec row x) as [E|E]; [congruence|]. simpl.
  now rewrite ?orb_true_r.
Qed.

Lemma peers_box (row col i j : nat) :
  row < 9 -> col < 9 -> i < 3 -> j < 3 ->
  row - row mod 3 + i <> row \/ col - col mod 3 + j <> col ->
  peers (row, col) (row - row mod 3 + i, col - col mod 3 + j) = true.
Proof.
  intros Hr Hc Hi Hj Hne. unfold peers. cbn [fst snd].
  rewrite !box_same_block by assumption. rewrite !Nat.eqb_refl.
  cbn [andb]. rewrite orb_true_r, andb_true_r. apply negb_true_iff.
  apply andb_false_iff. rewrite !Nat.eqb_neq. intuition congruence.
Qed.

(** On a board that shows part of a solution, the digit of the solution is
    accepted at any cell. *)
Lemma solution_digit_fits (puzzle sol : list (list Z))
    (placed : list (nat * nat)) (g newGrid : Grid Z) (row col : nat) :
  is_solution puzzle sol -> filled_as puzzle sol placed g ->
  row < 9 -> col < 9 ->
  write g row col (digit_at sol (row, col)) = Done newGrid ->
  invalid_move newGrid row col (digit_at sol (row, col)) = false.
Proof.
  intros Hsol Hfill Hrow Hcol W.
  assert (Hother : forall r c, r < 9 -> c < 9 ->
            peers (row, col) (r, c) = true ->
            cell newGrid r c <> Some (digit_at sol (row, col))).
  { intros r c Hr Hc Hp.
    rewrite (cell_write _ _ _ _ _ r c W).
    assert (E : (r =? row) && (c =? col) = false).
    { unfold peers in Hp. simpl in Hp.
      apply andb_true_iff in Hp. destruct Hp as [Hp _].
      apply negb_true_iff in Hp.
      now rewrite (Nat.eqb_sym r row), (Nat.eqb_sym c col). }
    rewrite E, (Hfill r c Hr Hc).
    destruct (solution_cell puzzle sol row col Hsol Hrow Hcol)
      as (Hrange & _ & Hpeers).
    destruct (is_filled puzzle placed (r, c)).
    - intros [= Heq]. apply (Hpeers r c Hr Hc Hp). congruence.
    - intros [= Heq]. lia. }
  unfold invalid_move.
  assert (Ha : row_dup newGrid row col (digit_at sol (row, col)) = false).
  { apply row_dup_false. intros x Hx Hne.
    apply Hother; [assumption | assumption | now apply peers_row]. }
  assert (Hb : col_dup newGrid row col (digit_at sol (row, col)) = false).
  { apply col_dup_false. intros x Hx Hne.
    apply Hother; [assumption | assumption | now apply peers_col]. }
  assert (Hc : box_dup newGrid row col (digit_at sol (row, col)) = false).
  { apply box_dup_false. intros i j Hi Hj Hne.
    apply Hother; [now apply box_start_bound | now apply box_start_bound |
                   now apply peers_box]. }
  rewrite Ha, Hb, Hc. apply andb_false_r.
Qed.

Lemma is_filled_cons (puzzle : list (list Z)) (placed : list (nat * nat))
    (a rc : nat * nat) :
  is_filled puzzle (a :: placed) rc
  = cell_eqb rc a || is_filled puzzle placed rc.
Proof.
  unfold is_filled. simpl.
  destruct (negb (digit_at puzzle rc =? 0)%Z), (cell_eqb rc a); reflexivity.
Qed.

(** One placement of the solution's digit: accepted, and [onSolved] is
    called exactly when no zero is left. *)
Lemma place_solution_digit (d : Difficulty) (sol : list (list Z))
    (placed : list (nat * nat)) (c : Component) (row col : nat) :
  is_solution (sudokuPuzzles d) sol -> solving d sol placed c ->
  row < 9 -> col < 9 -> digit_at (sudokuPuzzles d) (row, col) = 0%Z ->
  exists c',
    place c (row, col, digit_at sol (row, col))
    = (c', ToastSuccess (digit_at sol (row, col))
           :: (if has_zero (grid (state c')) then [] else [OnSolved])) /\
    solving d sol ((row, col) :: placed) c'.
Proof.
  intros Hsol (Hp & Hb & Hinit & Herr & Hfill) Hrow Hcol Hzero.
  destruct c as [p st]. cbn [props state] in *. subst p.
  set (v := digit_at sol (row, col)).
  unfold place. cbn [dispatch fst props state gameOver].
  set (st1 := fst (run (handleNumberSelect v) st)).
  assert (Hb1 : board_state st1) by exact Hb.
  assert (Hinit1 : cell (initialGrid st1) row col = Some 0%Z).
  { change (initialGrid st1) with (initialGrid st).
    rewrite Hinit, puzzle_cells by assumption. now rewrite Hzero. }
  destruct (handleCellClick_editable st1 row col Hb1 Hrow Hcol Hinit1)
    as (newGrid & newErrors & newCorrect & Wg & We & Wc & Hrun).
  cbv zeta in *. rewrite Hrun. clear Hrun. cbn [fst snd].
  change (selectedNumber st1) with v in *.
  change (grid st1) with (grid st) in *.
  change (errors st1) with (errors st) in *.
  change (correctCells st1) with (correctCells st) in *.
  change (initialGrid st1) with (initialGrid st) in *.
  destruct Hb as (Hg & Hi & He & Hc).
  pose proof (solution_digit_fits (sudokuPuzzles d) sol placed (grid st)
                newGrid row col Hsol Hfill Hrow Hcol Wg) as Hfit.
  fold v in Hfit. rewrite Hfit in *. clear Hfit.
  assert (Herr' : any_error newErrors = false).
  { apply any_error_false. intros r c.
    rewrite (cell_write _ _ _ _ _ r c We).
    destruct ((r =? row) && (c =? col)); [discriminate|].
    now apply any_error_false. }
  rewrite Herr'. simpl negb. rewrite andb_true_r.
  exists (mkComponent (mkProps d false)
            (mkState newGrid (initialGrid st) newErrors newCorrect v
                     (Some (row, col)) (highlightedNumber st1))).
  split.
  - cbn [state grid]. simpl app.
    destruct (has_zero newGrid); reflexivity.
  - unfold solving. cbn [props state grid initialGrid errors correctCells].
    split; [reflexivity|]. split.
    { unfold board_state. cbn [grid initialGrid errors correctCells].
      split; [exact (is_9x9_write _ _ _ _ _ Hg Hcol Wg)|].
      split; [exact Hi|].
      split; [exact (is_9x9_write _ _ _ _ _ He Hcol We)|].
      exact (is_9x9_write _ _ _ _ _ Hc Hcol Wc). }
    split; [exact Hinit|]. split; [exact Herr'|].
    intros r c Hr Hcc. rewrite (cell_write _ _ _ _ _ r c Wg).
    rewrite is_filled_cons. unfold cell_eqb. simpl fst. simpl snd.
    destruct ((r =? row) && (c =? col)) eqn:E; simpl.
    + apply andb_true_iff in E. destruct E as [E1 E2].
      apply Nat.eqb_eq in E1, E2. subst. reflexivity.
    + apply Hfill; assumption.
Qed.

Lemma has_zero_filled (puzzle sol : list (list Z)) (placed : list (nat * nat))
    (g : Grid Z) :
  is_solution puzzle sol -> filled_as puzzle sol placed g ->
  (has_zero g = false <->
   forall r c, r < 9 -> c < 9 -> is_filled puzzle placed (r, c) = true).
Proof.
  intros Hsol Hfill. rewrite has_zero_false.
  split; intros H r c Hr Hc; specialize (H r c Hr Hc);
    rewrite (Hfill r c Hr Hc) in *.
  - destruct (is_filled puzzle placed (r, c)); [reflexivity | congruence].
  - rewrite H.
    destruct (solution_cell puzzle sol r c Hsol Hr Hc) as (Hrange & _).
    intros [= Heq]. lia.
Qed.

Lemma solving_mount (d : Difficulty) (sol : list (list Z)) :
  is_solution (sudokuPuzzles d) sol ->
  solving d sol [] (mount (mkProps d false)).
Proof.
  intro Hsol. unfold solving.
  split; [reflexivity|]. split; [apply board_state_loaded|].
  split; [reflexivity|]. split; [destruct d; reflexivity|].
  intros r c Hr Hc.
  change (grid (state (mount (mkProps d false))))
    with (grid_of_rows (sudokuPuzzles d)).
  rewrite puzzle_cells by assumption. f_equal.
  unfold is_filled. simpl existsb. rewrite orb_false_r.
  destruct (Z.eqb_spec (digit_at (sudokuPuzzles d) (r, c)) 0) as [E|E]; simpl.
  - exact E.
  - now apply (solution_cell (sudokuPuzzles d) sol r c Hsol Hr Hc).
Qed.

(** Entering the digits of the solution on the cells of [rest], none of
    them placed yet, which together with [placed] cover the empty cells of
    the puzzle. *)
Lemma play_solution (d : Difficulty) (sol : list (list Z)) :
  is_solution (sudokuPuzzles d) sol ->
  forall (rest placed : list (nat * nat)) (c : Component),
    solving d sol placed c ->
    NoDup rest ->
    (forall rc, In rc rest ->
       In rc (empty_cells (sudokuPuzzles d)) /\ ~ In rc placed) ->
    (forall rc, In rc (empty_cells (sudokuPuzzles d)) ->
       In rc placed \/ In rc rest) ->
    exists c' log,
      play c (solution_moves sol rest) = (c', log) /\
      props c' = mkProps d false /\
      length log = length rest /\
      forall k rc, nth_error rest k = Some rc ->
        nth_error log k
        = Some (ToastSuccess (digit_at sol rc)
                :: (if S k =? length rest then [OnSolved] else [])).
Proof.
  intro Hsol. induction rest as [|[row col] rest IH];
    intros placed c Hsolv Hnd Hin Hcover.
  - exists c, []. simpl. split; [reflexivity|].
    split; [apply Hsolv|]. split; [reflexivity|].
    intros [|k] rc H; discriminate.
  - destruct (Hin (row, col) (or_introl eq_refl)) as [Hempty Hfresh].
    apply in_empty_cells in Hempty. destruct Hempty as (Hrow & Hcol & Hzero).
    destruct (place_solution_digit d sol placed c row col
                Hsol Hsolv Hrow Hcol Hzero) as (c1 & Hplace & Hsolv1).
    inversion Hnd as [|x l Hnotin Hnd']. subst x l.
    destruct (IH ((row, col) :: placed) c1 Hsolv1 Hnd') as
      (c' & log & Hplay & Hprops & Hlen & Hnth).
    { intros rc Hrc. destruct (Hin rc (or_intror Hrc)) as [H1 H2].
      split; [assumption|]. intros [<-|H]; contradiction. }
    { intros rc Hrc. destruct (Hcover rc Hrc) as [H|[H|H]].
      - left. now right.
      - left. now left.
      - now right. }
    exists c'. eexists.
    split; [|split; [exact Hprops|split]].
    + simpl solution_moves. cbn [play fst snd].
      rewrite Hplace, Hplay. reflexivity.
    + simpl. now rewrite Hlen.
    + intros [|k] rc Hk.
      * injection Hk as <-. cbn [nth_error length fst snd]. f_equal. f_equal.
        destruct Hsolv1 as (_ & _ & _ & _ & Hfill1).
        pose proof (has_zero_filled (sudokuPuzzles d) sol _ _ Hsol Hfill1)
          as Hz.
        destruct rest as [|[row2 col2] rest2].
        -- simpl. replace (has_zero (grid (state c1))) with false;
             [reflexivity|].
           symmetry. apply Hz. intros r cc Hr Hcc.
           unfold is_filled.
           destruct (Z.eqb_spec (digit_at (sudokuPuzzles d) (r, cc)) 0)
             as [E|E]; [|reflexivity].
           simpl negb. rewrite orb_false_l. apply existsb_cell_eqb.
           destruct (Hcover (r, cc)) as [H|[H|[]]].
           ++ apply in_empty_cells. auto.
           ++ now right.
           ++ now left.
        -- simpl. destruct (has_zero (grid (state c1))) eqn:Ez;
             [reflexivity|].
           exfalso.
           destruct (Hin (row2, col2) (or_intror (or_introl eq_refl)))
             as [Hempty2 Hfresh2].
           apply in_empty_cells in Hempty2.
           destruct Hempty2 as (Hrow2 & Hcol2 & Hzero2).
           pose proof (proj1 Hz eq_refl row2 col2 Hrow2 Hcol2) as Hf.
           unfold is_filled in Hf. rewrite Hzero2 in Hf.
           simpl negb in Hf. rewrite orb_false_l in Hf.
           apply existsb_cell_eqb in Hf. destruct Hf as [Hf|Hf].
           ++ apply Hnotin. rewrite Hf. now left.
           ++ contradiction.
      * cbn [nth_error] in *. rewrite (Hnth k rc Hk). reflexivity.
Qed.

Lemma empty_cells_nonempty (d : Difficulty) :
  empty_cells (sudokuPuzzles d) <> [].
Proof. destruct d; discriminate. Qed.

(** C6.  For each of the three puzzles, any correct solution [sol] of it
    ([solutions] gives one for each puzzle, see [solutions_correct]) and
    any ordering [cells] of its empty cells: entering the digit of [sol] at
    each cell in turn, every placement is accepted, [onSolved] is called at
    the last placement and at no earlier one, and the session ends
    Solved. *)
Theorem solution_in_any_order_solves
    (d : Difficulty) (sol : list (list Z)) (cells : list (nat * nat)) :
  is_solution (sudokuPuzzles d) sol ->
  Permutation cells (empty_cells (sudokuPuzzles d)) ->
  let out := play (mount (mkProps d false)) (solution_moves sol cells) in
  length (snd out) = length cells /\
  (forall k rc, nth_error cells k = Some rc ->
     nth_error (snd out) k
     = Some (ToastSuccess (digit_at sol rc)
             :: (if S k =? length cells then [OnSolved] else []))) /\
  outcome (fst out) (snd out) = Solved.
Proof.
  intros Hsol Hperm. cbv zeta.
  destruct (play_solution d sol Hsol cells [] (mount (mkProps d false)))
    as (c & log & Hplay & Hprops & Hlen & Hnth).
  - now apply solving_mount.
  - apply (Permutation_NoDup (Permutation_sym Hperm)), empty_cells_NoDup.
  - intros rc H. split; [|intros []].
    now apply (Permutation_in _ Hperm).
  - intros rc H. right. now apply (Permutation_in _ (Permutation_sym Hperm)).
  - rewrite Hplay. cbn [fst snd].
    split; [exact Hlen|]. split; [exact Hnth|].
    unfold outcome. rewrite Hprops. cbn [gameOver].
    assert (Hne : cells <> []).
    { intro E. subst cells. apply Permutation_nil in Hperm.
      now apply (empty_cells_nonempty d). }
    assert (Hlast : exists rc, nth_error cells (length cells - 1) = Some rc).
    { destruct (nth_error cells (length cells - 1)) as [rc|] eqn:E; [eauto|].
      apply nth_error_None in E. destruct cells; [congruence | simpl in E; lia]. }
    destruct Hlast as [rc Hrc]. specialize (Hnth _ _ Hrc).
    replace (S (length cells - 1) =? length cells) with true in Hnth.
    + replace (existsb (existsb is_OnSolved) log) with true; [reflexivity|].
      symmetry. apply existsb_exists. eexists.
      split; [eapply nth_error_In; exact Hnth | reflexivity].
    + symmetry. apply Nat.eqb_eq. destruct cells; [congruence | simpl; lia].
Qed.

Lemma solution_in_any_order_solves_witness :
  let cells := rev (empty_cells (sudokuPuzzles medium)) in
  is_solution (sudokuPuzzles medium) (solutions medium) /\
  Permutation cells (empty_cells (sudokuPuzzles medium)) /\
  let out := play (mount (mkProps medium false))
               (solution_moves (solutions medium) cells) in
  length (snd out) = length cells /\
  (forall k rc, nth_error cells k = Some rc ->
     nth_error (snd out) k
     = Some (ToastSuccess (digit_at (solutions medium) rc)
             :: (if S k =? length cells then [OnSolved] else []))) /\
  outcome (fst out) (snd out) = Solved.
Proof.
  cbv zeta.
  split; [vm_compute; reflexivity|].
  split; [apply Permutation_sym, Permutation_rev|].
  apply (solution_in_any_order_solves medium (solutions medium)
           (rev (empty_cells (sudokuPuzzles medium)))).
  - vm_compute. reflexivity.
  - apply Permutation_sym, Permutation_rev.
Defined.

(** * Further properties of the code *)

(** ** Loops, in general *)

Lemma for_range_ext {R} (body body' : nat -> flow R) (start count : nat) :
  (forall x, start <= x < start + count -> body x = body' x) ->
  for_range start count body = for_range start count body'.
Proof.
  revert start. induction count as [|n IH]; intros start H; simpl.
  - reflexivity.
  - rewrite (H start) by lia. rewrite (IH (S start)); [reflexivity|].
    intros x Hx. apply H. lia.
Qed.

Lemma for_range_Next_inv {R} (body : nat -> flow R) (start count : nat) :
  for_range start count body = Next ->
  forall x, start <= x < start + count -> body x = Next.
Proof.
  revert start. induction count as [|n IH]; intros start H x Hx; simpl in *.
  - lia.
  - destruct (body start) eqn:E; simpl in H; try discriminate.
    destruct (Nat.eq_dec x start) as [->|Hne]; [assumption|].
    apply (IH (S start) H). lia.
Qed.

Lemma for_range_Return_inv {R} (body : nat -> flow R) (start count : nat)
    (r : R) :
  for_range start count body = Return r ->
  exists x, start <= x < start + count /\ body x = Return r.
Proof.
  revert start. induction count as [|n IH]; intros start H; simpl in *.
  - discriminate.
  - destruct (body start) eqn:E; simpl in H.
    + destruct (IH (S start) H) as [x [Hx Hb]]. exists x. split; [lia|assumption].
    + exists start. split; [lia|congruence].
    + discriminate.
Qed.

Lemma reject_if_equal_not_true (guard : bool) (g : Grid Z) (r c : nat)
    (num : Z) :
  reject_if_equal guard g r c num <> Return true.
Proof.
  unfold reject_if_equal. destruct guard; [|discriminate].
  destruct (read g r c) as [x|]; [|discriminate].
  destruct (strict_eq x num); discriminate.
Qed.

Lemma reject_if_equal_Next_row (g : Grid Z) (r c : nat) (num : Z) :
  reject_if_equal true g r c num = Next -> r < length g.
Proof.
  unfold reject_if_equal, read, row_at.
  destruct (nth_error g r) eqn:E; [|discriminate].
  intros _. apply nth_error_Some. congruence.
Qed.

Lemma read_missing_row {A} (g : Grid A) (r c : nat) :
  length g <= r -> read g r c = TypeError.
Proof.
  intro H. unfold read, row_at.
  now rewrite (proj2 (nth_error_None g r) H).
Qed.

(** ** [isSolved] on any grid *)

(** X6.  [isSolved] answers [true] exactly on grids that have at least nine rows
    and no 0 among the cells of rows and columns 0..8.  Rows past the ninth
    are not looked at, a cell that is undefined counts as filled, and on a
    grid with fewer than nine rows the function answers [false] or raises,
    never [true]. *)
Theorem isSolved_true_iff (g : Grid Z) :
  isSolved g = Done true <->
  9 <= length g /\
  forall r c, r < 9 -> c < 9 -> cell g r c <> Some 0%Z.
Proof.
  split.
  - intro H.
    assert (Hlen : 9 <= length g).
    { unfold isSolved, returned in H.
      destruct (for_range 0 9 _) as [|b|] eqn:E; try discriminate.
      - assert (Hrow : forall r, r < 9 -> r < length g).
        { intros r Hr.
          pose proof (for_range_Next_inv _ 0 9 E r (conj (Nat.le_0_l r) Hr))
            as Hin. cbv beta in Hin.
          pose proof (for_range_Next_inv _ 0 9 Hin 0) as H0.
          cbv beta in H0. apply (reject_if_equal_Next_row g r 0 0).
          apply H0. lia. }
        specialize (Hrow 8). lia.
      - injection H as ->.
        apply for_range_Return_inv in E. destruct E as [r [_ E]].
        apply for_range_Return_inv in E. destruct E as [c [_ E]].
        now apply reject_if_equal_not_true in E. }
    split; [assumption|].
    rewrite isSolved_closed in H by assumption.
    apply has_zero_false. injection H as H. now apply negb_true_iff in H.
  - intros [Hlen Hz]. rewrite isSolved_closed by assumption.
    apply has_zero_false in Hz. now rewrite Hz.
Qed.

(** Nine empty rows count as solved, the grid of [useState] raises. *)
Example isSolved_edge_cases :
  isSolved (repeat [] 9) = Done true /\
  isSolved [] = TypeError /\
  isSolved (repeat (repeat (Some 1%Z) 9) 8) = TypeError /\
  isSolved (repeat (repeat (Some 0%Z) 9) 8) = Done false.
Proof. repeat split. Qed.

(** ** [isValidMove] on any grid *)

(** X4.  When [grid[row]] does not exist, [isValidMove] raises: the row scan
    fails at its first read, before any verdict. *)
Theorem isValidMove_missing_row (g : Grid Z) (row col : nat) (num : Z) :
  length g <= row -> isValidMove g row col num = TypeError.
Proof.
  intro H. unfold isValidMove, row_scan.
  assert (E : forall x, reject_if_equal (negb (x =? col)) g row x num
                        = if negb (x =? col) then Raise else Next).
  { intro x. unfold reject_if_equal.
    now rewrite read_missing_row by assumption. }
  rewrite (for_range_ext _ (fun x => if negb (x =? col) then Raise else Next))
    by (intros; apply E).
  destruct col as [|[|col]]; reflexivity.
Qed.

Lemma isValidMove_missing_row_witness :
  length (grid initial_state) <= 0 /\
  isValidMove (grid initial_state) 0 0 1 = TypeError.
Proof.
  split; [simpl; lia|].
  apply (isValidMove_missing_row (grid initial_state) 0 0 1). simpl. lia.
Defined.

Lemma scan_flow_not_true (s : Scan) (g : Grid Z) (row col : nat) (num : Z) :
  run_scan s g row col num <> Return true.
Proof.
  intro H. destruct s; simpl in H.
  - apply for_range_Return_inv in H. destruct H as [x [_ H]].
    now apply reject_if_equal_not_true in H.
  - apply for_range_Return_inv in H. destruct H as [x [_ H]].
    now apply reject_if_equal_not_true in H.
  - unfold box_scan in H. cbv zeta in H.
    apply for_range_Return_inv in H. destruct H as [i [_ H]].
    apply for_range_Return_inv in H. destruct H as [j [_ H]].
    now apply reject_if_equal_not_true in H.
Qed.

Lemma guarded_Next_row (guard : bool) (g : Grid Z) (r c : nat) (num : Z) :
  guard = true -> reject_if_equal guard g r c num = Next -> r < length g.
Proof. intros ->. apply reject_if_equal_Next_row. Qed.

(** X5.  [isValidMove] accepts a move only on a grid that has at least nine
    rows, the target row among them; on a shorter grid the answer is
    [false] or an exception. *)
Theorem isValidMove_true_needs_rows (g : Grid Z) (row col : nat) (num : Z) :
  isValidMove g row col num = Done true ->
  9 <= length g /\ row < length g.
Proof.
  unfold isValidMove, returned. intro H.
  destruct (row_scan g row col num) as [|b|] eqn:Er; simpl in H;
    [| injection H as ->; now apply (scan_flow_not_true RowScan) in Er
     | discriminate].
  destruct (col_scan g row col num) as [|b|] eqn:Ec; simpl in H;
    [| injection H as ->; now apply (scan_flow_not_true ColScan) in Ec
     | discriminate].
  assert (Hrow : row < length g).
  { unfold row_scan in Er.
    destruct (Nat.eq_dec col 0) as [->|Hc].
    - apply (guarded_Next_row (negb (1 =? 0)) g row 1 num eq_refl).
      apply (for_range_Next_inv _ 0 9 Er 1). lia.
    - apply (guarded_Next_row (negb (0 =? col)) g row 0 num).
      + apply negb_true_iff, Nat.eqb_neq. congruence.
      + apply (for_range_Next_inv _ 0 9 Er 0). lia. }
  split; [|assumption].
  destruct (Nat.eq_dec row 8) as [->|H8]; [lia|].
  assert (8 < length g); [|lia].
  apply (guarded_Next_row (negb (8 =? row)) g 8 col num).
  - apply negb_true_iff, Nat.eqb_neq. congruence.
  - apply (for_range_Next_inv _ 0 9 Ec 8). lia.
Qed.

Lemma isValidMove_true_needs_rows_witness :
  let g := grid_of_rows (sudokuPuzzles easy) in
  isValidMove g 0 2 4 = Done true /\ 9 <= length g /\ 0 < length g.
Proof.
  cbv zeta. split; [reflexivity|].
  apply (isValidMove_true_needs_rows (grid_of_rows (sudokuPuzzles easy)) 0 2 4).
  reflexivity.
Defined.

Lemma read_write_other {A} (g g' : Grid A) (row col : nat) (v : A)
    (r c : nat) :
  write g row col v = Done g' ->
  r <> row \/ c <> col ->
  read g' r c = read g r c.
Proof.
  unfold write. destruct (row_at g row) as [old|] eqn:E; intro H; inversion H.
  subst g'. clear H. intro Hne. unfold read.
  assert (Hlt : row < length g).
  { apply nth_error_Some. unfold row_at in E. congruence. }
  destruct (Nat.eq_dec r row) as [->|Hr].
  - rewrite row_at_replace_same by assumption. rewrite E.
    rewrite get_set_other by (intro; subst; tauto). reflexivity.
  - rewrite row_at_replace_other by congruence. reflexivity.
Qed.

Lemma reject_if_equal_write (guard : bool) (g g' : Grid Z) (row col : nat)
    (v : Z) (r c : nat) (num : Z) :
  write g row col v = Done g' ->
  (guard = true -> r <> row \/ c <> col) ->
  reject_if_equal guard g' r c num = reject_if_equal guard g r c num.
Proof.
  intros W H. unfold reject_if_equal. destruct guard; [|reflexivity].
  now rewrite (read_write_other g g' row col v r c W (H eq_refl)).
Qed.

(** X3.  The verdict of [isValidMove] for [(row, col)] does not depend on what
    the cell [(row, col)] holds: writing any value there first leaves the
    result, verdict or exception, unchanged.  So the handler may write the
    candidate before validating it. *)
Theorem isValidMove_ignores_target
    (g g' : Grid Z) (row col : nat) (v num : Z) :
  write g row col v = Done g' ->
  isValidMove g' row col num = isValidMove g row col num.
Proof.
  intro W. unfold isValidMove, row_scan, col_scan, box_scan. cbv zeta.
  f_equal. f_equal; [|f_equal].
  - apply for_range_ext. intros x _. apply (reject_if_equal_write _ g g' row col v); [assumption|].
    intro Hg. right. apply negb_true_iff, Nat.eqb_neq in Hg. assumption.
  - apply for_range_ext. intros x _. apply (reject_if_equal_write _ g g' row col v); [assumption|].
    intro Hg. left. apply negb_true_iff, Nat.eqb_neq in Hg. assumption.
  - apply for_range_ext. intros i _. apply for_range_ext. intros j _.
    apply (reject_if_equal_write _ g g' row col v); [assumption|].
    intro Hg. apply orb_true_iff in Hg.
    rewrite !negb_true_iff, !Nat.eqb_neq in Hg. assumption.
Qed.

Lemma isValidMove_ignores_target_witness :
  let g := grid_of_rows (sudokuPuzzles easy) in
  let g' := grid (state (fst (place (mount (mkProps easy false)) (0, 2, 5%Z)))) in
  write g 0 2 5%Z = Done g' /\
  isValidMove g' 0 2 6%Z = isValidMove g 0 2 6%Z.
Proof.
  cbv zeta. split; [reflexivity|].
  apply (isValidMove_ignores_target (grid_of_rows (sudokuPuzzles easy))
           (grid (state (fst (place (mount (mkProps easy false)) (0, 2, 5%Z)))))
           0 2 5%Z 6%Z).
  reflexivity.
Defined.

(** ** What a click leaves alone *)

Lemma cell_write_other {A} (g g' : Grid A) (row col : nat) (v : A)
    (r c : nat) :
  write g row col v = Done g' ->
  r <> row \/ c <> col ->
  cell g' r c = cell g r c.
Proof.
  intros W Hne. rewrite (cell_write g g' row col v r c W).
  destruct (Nat.eqb_spec r row), (Nat.eqb_spec c col); simpl; try reflexivity.
  exfalso. tauto.
Qed.

Lemma click_frame (st : State) (over : bool) (row col : nat) :
  let st' := fst (run (handleCellClick st over row col) st) in
  initialGrid st' = initialGrid st /\
  selectedNumber st' = selectedNumber st /\
  highlightedNumber st' = highlightedNumber st /\
  forall r c, r <> row \/ c <> col ->
    cell (grid st') r c = cell (grid st) r c /\
    cell (errors st') r c = cell (errors st) r c /\
    cell (correctCells st') r c = cell (correctCells st) r c.
Proof.
  cbv zeta.
  assert (Hg : forall g', write (grid st) row col (selectedNumber st) = Done g' ->
     forall r c, r <> row \/ c <> col -> cell g' r c = cell (grid st) r c).
  { intros g' W r c Hne. eapply cell_write_other; eauto. }
  assert (He : forall b e', write (errors st) row col b = Done e' ->
     forall r c, r <> row \/ c <> col -> cell e' r c = cell (errors st) r c).
  { intros b e' W r c Hne. eapply cell_write_other; eauto. }
  assert (Hc : forall b e', write (correctCells st) row col b = Done e' ->
     forall r c, r <> row \/ c <> col ->
     cell e' r c = cell (correctCells st) r c).
  { intros b e' W r c Hne. eapply cell_write_other; eauto. }
  unfold run, handleCellClick, bind, lift, ret, emit, setGrid, setErrors,
    setCorrectCells, setSelectedCell, update.
  cbv beta.
  destruct (read (initialGrid st) row col) as [x|]; [|cbn; tauto].
  destruct (negb (strict_eq x 0) || over); [cbn; tauto|].
  destruct (write (grid st) row col (selectedNumber st)) as [newGrid|] eqn:Wg;
    [|cbn; tauto].
  specialize (Hg newGrid eq_refl).
  destruct (negb (selectedNumber st =? 0)%Z);
    [destruct (isValidMove newGrid row col (selectedNumber st)) as [[|]|];
     [ | | cbn; tauto] |];
    cbn [negb fst snd pending sent].
  all: (destruct (write (errors st) row col _) as [newErrors|] eqn:We;
        [|cbn; tauto]).
  all: (destruct (write (correctCells st) row col _) as [newCorrect|] eqn:Wc;
        [|cbn; tauto]).
  all: destruct (isSolved newGrid) as [[|]|]; cbn;
    repeat match goal with
           | |- context [if ?b then _ else _] => destruct b
           end; cbn;
    (split; [reflexivity|]; split; [reflexivity|]; split; [reflexivity|];
     intros r c Hne;
     split; [auto | split; [eapply He; eauto | eapply Hc; eauto]]).
Qed.

(** X1.  In any state and whatever the outcome (ignored, completed or aborted
    by an exception), a click on [(row, col)] leaves [initialGrid],
    [selectedNumber] and [highlightedNumber] as they were, and changes no
    cell of [grid], [errors] and [correctCells] other than [(row, col)]. *)
Theorem click_touches_one_cell
    (st : State) (over : bool) (row col : nat) :
  let st' := fst (run (handleCellClick st over row col) st) in
  initialGrid st' = initialGrid st /\
  selectedNumber st' = selectedNumber st /\
  highlightedNumber st' = highlightedNumber st /\
  forall r c, r <> row \/ c <> col ->
    cell (grid st') r c = cell (grid st) r c /\
    cell (errors st') r c = cell (errors st) r c /\
    cell (correctCells st') r c = cell (correctCells st) r c.
Proof. exact (click_frame st over row col). Qed.

Lemma click_touches_one_cell_witness :
  let st := state (fst (dispatch (mount (mkProps easy false)) (NumberSelect 5))) in
  let st' := fst (run (handleCellClick st false 0 2) st) in
  (0 <> 0 \/ 3 <> 2) /\
  cell (grid st') 0 2 <> cell (grid st) 0 2 /\
  cell (grid st') 0 3 = cell (grid st) 0 3 /\
  cell (errors st') 0 3 = cell (errors st) 0 3 /\
  cell (correctCells st') 0 3 = cell (correctCells st) 0 3.
Proof.
  cbv zeta. split; [right; discriminate|]. split; [discriminate|].
  apply (click_touches_one_cell
           (state (fst (dispatch (mount (mkProps easy false)) (NumberSelect 5))))
           false 0 2).
  right. discriminate.
Defined.

Lemma click_touches_one_cell_example :
  let st := state (fst (dispatch (mount (mkProps easy false)) (NumberSelect 5))) in
  let st' := fst (run (handleCellClick st false 0 2) st) in
  cell (grid st') 0 2 <> cell (grid st) 0 2 /\
  cell (errors st') 0 2 <> cell (errors st) 0 2 /\
  selectedCell st' <> selectedCell st.
Proof. vm_compute. repeat split; discriminate. Qed.

(** ** Stale error flags *)

(** X2.  In any state, while another cell carries the error flag, a click never
    calls [onSolved], whatever the grid holds afterwards: the flag of a cell
    is recomputed only by a click on that cell. *)
Theorem flag_elsewhere_blocks_onSolved
    (st : State) (over : bool) (row col r c : nat) :
  cell (errors st) r c = Some true ->
  r <> row \/ c <> col ->
  ~ In OnSolved (snd (run (handleCellClick st over row col) st)).
Proof.
  intros Hflag Hne.
  assert (He : forall b e', write (errors st) row col b = Done e' ->
                            any_error e' = true).
  { intros b e' W. apply (cell_any_error e' r c).
    now rewrite (cell_write_other _ _ _ _ _ r c W Hne). }
  unfold run, handleCellClick, bind, lift, ret, emit, setGrid, setErrors,
    setCorrectCells, setSelectedCell, update.
  cbv beta.
  destruct (read (initialGrid st) row col) as [x|]; [|cbn; tauto].
  destruct (negb (strict_eq x 0) || over); [cbn; tauto|].
  destruct (write (grid st) row col (selectedNumber st)) as [newGrid|];
    [|cbn; tauto].
  destruct (negb (selectedNumber st =? 0)%Z);
    [destruct (isValidMove newGrid row col (selectedNumber st)) as [[|]|];
     [ | | cbn; tauto] |];
    cbn [negb fst snd pending sent].
  all: (destruct (write (errors st) row col _) as [newErrors|] eqn:We;
        [|cbn; tauto]).
  all: (destruct (write (correctCells st) row col _) as [newCorrect|];
        [|cbn; tauto]).
  all: pose proof (He _ _ We) as Hany;
    destruct (isSolved newGrid) as [[|]|]; cbn [fst snd andb];
    rewrite ?Hany; cbn; intuition discriminate.
Qed.

(** The case that matters to a player: the easy board holds its complete,
    correct solution, but the 6 of row 0, column 3 was entered while a 6
    stood (wrongly) at row 0, column 2.  Correcting column 2 to 4 is
    accepted and does not call [onSolved]; entering the 6 at column 3 once
    more does. *)
Lemma flag_elsewhere_blocks_onSolved_witness :
  let others := filter (fun rc => negb (cell_eqb rc (0, 2)) && negb (cell_eqb rc (0, 3)))
                  (empty_cells (sudokuPuzzles easy)) in
  let c0 := fst (play (mount (mkProps easy false))
                   (solution_moves (solutions easy) others
                    ++ [(0, 2, 6%Z); (0, 3, 6%Z)])) in
  let st := state (fst (dispatch c0 (NumberSelect 4))) in
  cell (errors st) 0 3 = Some true /\
  (0 <> 0 \/ 3 <> 2) /\
  ~ In OnSolved (snd (run (handleCellClick st false 0 2) st)) /\
  snd (run (handleCellClick st false 0 2) st) = [ToastSuccess 4] /\
  grid (fst (run (handleCellClick st false 0 2) st))
    = grid_of_rows (solutions easy) /\
  snd (place (mkComponent (mkProps easy false)
                (fst (run (handleCellClick st false 0 2) st))) (0, 3, 6%Z))
    = [ToastSuccess 6; OnSolved].
Proof.
  cbv zeta. split; [reflexivity|]. split; [right; discriminate|].
  split.
  - apply (flag_elsewhere_blocks_onSolved
             (state (fst (dispatch
                (fst (play (mount (mkProps easy false))
                   (solution_moves (solutions easy)
                      (filter (fun rc => negb (cell_eqb rc (0, 2))
                                         && negb (cell_eqb rc (0, 3)))
                         (empty_cells (sudokuPuzzles easy)))
                    ++ [(0, 2, 6%Z); (0, 3, 6%Z)])))
                (NumberSelect 4))))
             false 0 2 0 3);
      [reflexivity | right; discriminate].
  - repeat split; vm_compute; reflexivity.
Defined.

(** ** Clicking the same cell again *)

Lemma set_set {A} (a : JsArray.t A) (i : nat) (v w : A) :
  JsArray.set (JsArray.set a i v) i w = JsArray.set a i w.
Proof.
  revert a. induction i as [|i IH]; intros [|x a]; simpl; try reflexivity.
  - now rewrite (IH []).
  - now rewrite IH.
Qed.

Lemma replace_row_twice {A} (g : Grid A) (row : nat) (x y : JsArray.t A) :
  replace_row (replace_row g row x) row y = replace_row g row y.
Proof.
  revert row. induction g as [|z g IH]; intros [|row]; simpl; try reflexivity.
  now rewrite IH.
Qed.

(** Of two writes to the same cell only the second one shows. *)
Lemma write_write {A} (g g1 : Grid A) (row col : nat) (a b : A) :
  write g row col a = Done g1 ->
  write g1 row col b = write g row col b.
Proof.
  unfold write. destruct (row_at g row) as [old|] eqn:E; intro H; inversion H.
  assert (Hlt : row < length g).
  { apply nth_error_Some. unfold row_at in E. congruence. }
  rewrite row_at_replace_same by assumption.
  now rewrite replace_row_twice, set_set.
Qed.

(** Two boards on which the writes of a click give the same grids get the
    same result from the click. *)
Lemma click_result_determined (sa sb : State) (row col : nat) :
  board_state sa -> board_state sb -> row < 9 -> col < 9 ->
  cell (initialGrid sa) row col = Some 0%Z ->
  initialGrid sa = initialGrid sb ->
  selectedNumber sa = selectedNumber sb ->
  highlightedNumber sa = highlightedNumber sb ->
  write (grid sa) row col (selectedNumber sa)
    = write (grid sb) row col (selectedNumber sa) ->
  (forall v, write (errors sa) row col v = write (errors sb) row col v) ->
  (forall v, write (correctCells sa) row col v
             = write (correctCells sb) row col v) ->
  run (handleCellClick sa false row col) sa
  = run (handleCellClick sb false row col) sb.
Proof.
  intros Ha Hb Hrow Hcol Hinit Ei En Eh Eg Ee Ec.
  destruct (handleCellClick_editable sa row col Ha Hrow Hcol Hinit)
    as (ga & ea & ca & Wga & Wea & Wca & Hruna).
  assert (Hinit' : cell (initialGrid sb) row col = Some 0%Z) by congruence.
  destruct (handleCellClick_editable sb row col Hb Hrow Hcol Hinit')
    as (gb & eb & cb & Wgb & Web & Wcb & Hrunb).
  cbv zeta in *. rewrite Hruna, Hrunb. clear Hruna Hrunb.
  rewrite <- En in *. rewrite Eg in Wga.
  assert (ga = gb) by congruence. subst gb.
  rewrite Ee in Wea. assert (ea = eb) by congruence. subst eb.
  rewrite Ec in Wca. assert (ca = cb) by congruence. subst cb.
  now rewrite Ei, Eh.
Qed.

(** X7.  A second click on the same editable cell of a board, with the same
    digit selected, leaves the state exactly as the first click left it and
    sends the same signals again: a rejected digit calls [onError] once per
    click, and a solving digit calls [onSolved] once per click. *)
Theorem repeated_click_repeats_signals (st : State) (row col : nat) :
  board_state st -> row < 9 -> col < 9 ->
  cell (initialGrid st) row col = Some 0%Z ->
  let out := run (handleCellClick st false row col) st in
  run (handleCellClick (fst out) false row col) (fst out) = out.
Proof.
  intros Hb Hrow Hcol Hinit. cbv zeta.
  destruct (handleCellClick_editable st row col Hb Hrow Hcol Hinit)
    as (newGrid & newErrors & newCorrect & Wg & We & Wc & Hrun).
  cbv zeta in *.
  destruct Hb as (Hg & Hi & He & Hc).
  set (st1 := fst (run (handleCellClick st false row col) st)).
  assert (E1 : st1 = mkState newGrid (initialGrid st) newErrors newCorrect
                       (selectedNumber st) (Some (row, col))
                       (highlightedNumber st)).
  { subst st1. now rewrite Hrun. }
  assert (Hb1 : board_state st1).
  { rewrite E1. unfold board_state. cbn [grid initialGrid errors correctCells].
    split; [exact (is_9x9_write _ _ _ _ _ Hg Hcol Wg)|].
    split; [exact Hi|].
    split; [exact (is_9x9_write _ _ _ _ _ He Hcol We)|].
    exact (is_9x9_write _ _ _ _ _ Hc Hcol Wc). }
  rewrite (click_result_determined st1 st row col Hb1
             (conj Hg (conj Hi (conj He Hc))) Hrow Hcol).
  - subst st1. now destruct (run (handleCellClick st false row col) st).
  - now rewrite E1.
  - now rewrite E1.
  - now rewrite E1.
  - now rewrite E1.
  - rewrite E1. cbn [grid selectedNumber]. exact (write_write _ _ _ _ _ _ Wg).
  - intro v. rewrite E1. cbn [errors]. exact (write_write _ _ _ _ _ _ We).
  - intro v. rewrite E1. cbn [correctCells]. exact (write_write _ _ _ _ _ _ Wc).
Qed.

Lemma repeated_click_repeats_signals_witness :
  let st := state (fst (dispatch (mount (mkProps easy false)) (NumberSelect 5))) in
  board_state st /\ 0 < 9 /\ 2 < 9 /\
  cell (initialGrid st) 0 2 = Some 0%Z /\
  snd (run (handleCellClick st false 0 2) st) = [OnError; ToastError 5] /\
  let out := run (handleCellClick st false 0 2) st in
  run (handleCellClick (fst out) false 0 2) (fst out) = out.
Proof.
  cbv zeta.
  split; [repeat split; reflexivity|].
  split; [lia|]. split; [lia|]. split; [reflexivity|]. split; [reflexivity|].
  apply (repeated_click_repeats_signals
           (state (fst (dispatch (mount (mkProps easy false)) (NumberSelect 5))))
           0 2);
    [repeat split; reflexivity | lia | lia | reflexivity].
Defined.

(** X8.  Entering a digit over an earlier entry gives the state and the signals
    that entering it on the untouched cell would have given: nothing of the
    earlier entry, its value or its flags, is left. *)
Theorem later_entry_replaces_earlier
    (st : State) (row col : nat) (number : Z) :
  board_state st -> row < 9 -> col < 9 ->
  cell (initialGrid st) row col = Some 0%Z ->
  let pick := fun s => fst (run (handleNumberSelect number) s) in
  let st1 := fst (run (handleCellClick st false row col) st) in
  run (handleCellClick (pick st1) false row col) (pick st1)
  = run (handleCellClick (pick st) false row col) (pick st).
Proof.
  intros Hb Hrow Hcol Hinit. cbv zeta.
  destruct (handleCellClick_editable st row col Hb Hrow Hcol Hinit)
    as (newGrid & newErrors & newCorrect & Wg & We & Wc & Hrun).
  cbv zeta in *. rewrite Hrun. cbn [fst]. clear Hrun.
  destruct Hb as (Hg & Hi & He & Hc).
  apply click_result_determined; try assumption; try reflexivity.
  - unfold board_state. cbn.
    split; [exact (is_9x9_write _ _ _ _ _ Hg Hcol Wg)|].
    split; [exact Hi|].
    split; [exact (is_9x9_write _ _ _ _ _ He Hcol We)|].
    exact (is_9x9_write _ _ _ _ _ Hc Hcol Wc).
  - exact (conj Hg (conj Hi (conj He Hc))).
  - cbn. exact (write_write _ _ _ _ _ _ Wg).
  - intro v. cbn. exact (write_write _ _ _ _ _ _ We).
  - intro v. cbn. exact (write_write _ _ _ _ _ _ Wc).
Qed.

Lemma later_entry_replaces_earlier_witness :
  let st := state (fst (dispatch (mount (mkProps easy false)) (NumberSelect 5))) in
  board_state st /\ 0 < 9 /\ 2 < 9 /\
  cell (initialGrid st) 0 2 = Some 0%Z /\
  let pick := fun s => fst (run (handleNumberSelect 4) s) in
  let st1 := fst (run (handleCellClick st false 0 2) st) in
  cell (errors st1) 0 2 = Some true /\
  run (handleCellClick (pick st1) false 0 2) (pick st1)
  = run (handleCellClick (pick st) false 0 2) (pick st).
Proof.
  cbv zeta.
  split; [repeat split; reflexivity|].
  split; [lia|]. split; [lia|]. split; [reflexivity|]. split; [reflexivity|].
  apply (later_entry_replaces_earlier
           (state (fst (dispatch (mount (mkProps easy false)) (NumberSelect 5))))
           0 2 4);
    [repeat split; reflexivity | lia | lia | reflexivity].
Defined.

(** ** The two flags of a cell *)

Lemma all_false_no_flag (r c : nat) : cell all_false r c <> Some true.
Proof. apply any_error_false. reflexivity. Qed.

Lemma invalid_move_nonzero (g : Grid Z) (row col : nat) (num : Z) :
  invalid_move g row col num = true -> num <> 0%Z.
Proof.
  unfold invalid_move. intro H. apply andb_true_iff in H.
  destruct H as [H _]. apply negb_true_iff in H. now apply Z.eqb_neq.
Qed.

Lemma flags_consistent_loaded (d : Difficulty) (st : State) :
  flags_consistent (fst (run (load_effect d) st)).
Proof.
  intros r c. split; intro H; exfalso; exact (all_false_no_flag r c H).
Qed.

Lemma click_keeps_flags_consistent (st : State) (over : bool) (row col : nat) :
  board_state st -> flags_consistent st ->
  flags_consistent (fst (run (handleCellClick st over row col) st)).
Proof.
  intros Hb Hf.
  assert (Hcases : (over = true \/ cell (initialGrid st) row col <> Some 0%Z)
                   \/ (over = false /\ cell (initialGrid st) row col = Some 0%Z)).
  { destruct over; [tauto|].
    destruct (cell (initialGrid st) row col) as [v|]; [|left; right; discriminate].
    destruct (Z.eq_dec v 0) as [->|Hv]; [tauto|].
    left. right. congruence. }
  destruct Hcases as [Hign|[-> Hinit]].
  - unfold run. now rewrite handleCellClick_ignored by assumption.
  - destruct (editable_in_range st row col 0 (proj1 (proj2 Hb)) Hinit)
      as [Hrow Hcol].
    destruct (handleCellClick_editable st row col Hb Hrow Hcol Hinit)
      as (newGrid & newErrors & newCorrect & Wg & We & Wc & Hrun).
    cbv zeta in *. rewrite Hrun. cbn [fst]. clear Hrun.
    intros r c. cbn [grid initialGrid errors correctCells].
    rewrite (cell_write _ _ _ _ _ r c Wg), (cell_write _ _ _ _ _ r c We),
      (cell_write _ _ _ _ _ r c Wc).
    destruct ((r =? row) && (c =? col)) eqn:E.
    + apply andb_true_iff in E. destruct E as [E1 E2].
      apply Nat.eqb_eq in E1, E2. subst r c.
      destruct (invalid_move newGrid row col (selectedNumber st)) eqn:Einv;
        simpl; split; intro H; try discriminate.
      * split; [reflexivity|]. split; [assumption|].
        exists (selectedNumber st). split; [reflexivity|].
        now apply (invalid_move_nonzero newGrid row col).
      * split; [reflexivity | assumption].
    + apply Hf.
Qed.

Lemma dispatch_keeps_flags_consistent (c : Component) (e : Event) :
  session_invariant c -> flags_consistent (state c) ->
  flags_consistent (state (fst (dispatch c e))).
Proof.
  intros (Hb & _ & _) Hf. destruct c as [p st]. cbn [state props] in *.
  destruct e as [row col | number | p']; cbn [dispatch fst state props].
  - now apply click_keeps_flags_consistent.
  - exact Hf.
  - destruct (Difficulty_eqb (difficulty p') (difficulty p));
      cbn [fst state]; [exact Hf | apply flags_consistent_loaded].
Qed.

(** X9.  At any moment of a session, whatever the events were: no cell carries
    both the error and the correct flag, a flagged cell is editable (its
    initial value is 0), and a cell flagged as an error holds a number
    other than 0.  So the three statuses untouched, correct and error are
    well defined and prefilled cells are always untouched. *)
Theorem session_flags_consistent (p : Props) (es : list Event) :
  flags_consistent (state (fst (dispatch_all (mount p) es))).
Proof.
  assert (H : forall es c, session_invariant c -> flags_consistent (state c) ->
              flags_consistent (state (fst (dispatch_all c es)))).
  { clear es. induction es as [|e es IH]; intros c Hs Hf; simpl.
    - exact Hf.
    - pose proof (dispatch_preserves c e Hs) as H1.
      pose proof (dispatch_keeps_flags_consistent c e Hs Hf) as H2.
      destruct (dispatch c e) as [c' sigs]. cbn [fst] in *.
      specialize (IH c' H1 H2).
      destruct (dispatch_all c' es) as [c'' log]. exact IH. }
  apply H; [apply session_invariant_mount|].
  apply flags_consistent_loaded.
Qed.

(** ** Exceptions of the click handler *)

(** X10.  On a board, a click raises exactly when [row] is not one of 0..8, and
    then nothing was scheduled or sent; a click with [col] outside 0..8 is
    ignored without an exception. *)
Theorem click_raises_only_off_board
    (st : State) (over : bool) (row col : nat) :
  board_state st ->
  outcome_of (handleCellClick st over row col) st
    = (if row <? 9 then Done tt else TypeError) /\
  (9 <= row \/ 9 <= col ->
   run (handleCellClick st over row col) st = (st, [])).
Proof.
  intros Hb. split.
  - destruct Hb as (Hg & Hi & He & Hc).
    pose proof (is_9x9_length _ Hg) as Lg.
    pose proof (is_9x9_length _ Hi) as Li.
    pose proof (is_9x9_length _ He) as Le.
    pose proof (is_9x9_length _ Hc) as Lc.
    unfold outcome_of, handleCellClick, bind, lift.
    destruct (Nat.ltb_spec row 9) as [Hrow|Hrow].
    + rewrite read_cell by lia.
      destruct (negb (strict_eq (cell (initialGrid st) row col) 0) || over);
        [reflexivity|].
      cbn [setSelectedCell update fst snd].
      destruct (write_Done (grid st) row col (selectedNumber st))
        as [newGrid Wg]; [lia|].
      pose proof (write_length _ _ _ _ _ Wg) as Lg'.
      rewrite Wg, isSolved_closed by lia.
      assert (Hw : forall b b',
        exists e k, write (errors st) row col b = Done e /\
                    write (correctCells st) row col b' = Done k).
      { intros b b'.
        destruct (write_Done (errors st) row col b) as [e We]; [lia|].
        destruct (write_Done (correctCells st) row col b') as [k Wk]; [lia|].
        eauto. }
      destruct (negb (selectedNumber st =? 0)%Z).
      * rewrite isValidMove_closed by lia. cbn [ret negb].
        destruct (negb (negb _)).
        -- destruct (Hw true false) as (e & k & -> & ->).
           cbn -[has_zero any_error].
           destruct (negb (has_zero newGrid) && negb (any_error e)); reflexivity.
        -- destruct (Hw false true) as (e & k & -> & ->).
           cbn -[has_zero any_error].
           destruct (negb (has_zero newGrid) && negb (any_error e)); reflexivity.
      * destruct (Hw false true) as (e & k & -> & ->).
        cbn -[has_zero any_error].
        destruct (negb (has_zero newGrid) && negb (any_error e)); reflexivity.
    + now rewrite read_missing_row by lia.
  - intro Hout. unfold run. rewrite handleCellClick_ignored; [reflexivity|].
    right. rewrite (is_9x9_outside _ row col (proj1 (proj2 Hb)) Hout).
    discriminate.
Qed.

Lemma click_raises_only_off_board_witness :
  let st := state (mount (mkProps medium false)) in
  board_state st /\
  outcome_of (handleCellClick st false 9 0) st = TypeError /\
  outcome_of (handleCellClick st false 0 9) st = Done tt /\
  run (handleCellClick st false 0 9) st = (st, []).
Proof.
  cbv zeta.
  pose proof (click_raises_only_off_board
                (state (mount (mkProps medium false))) false 9 0) as H9.
  pose proof (click_raises_only_off_board
                (state (mount (mkProps medium false))) false 0 9) as H0.
  split; [repeat split; reflexivity|].
  split; [apply H9; repeat split; reflexivity|].
  split; [apply H0; repeat split; reflexivity|].
  apply H0; [repeat split; reflexivity | right; lia].
Defined.

(** ** Sessions driven through the rendered controls *)

Lemma click_target_value (st : State) (over : bool) (row col : nat) :
  let st' := fst (run (handleCellClick st over row col) st) in
  cell (grid st') row col = cell (grid st) row col \/
  cell (grid st') row col = Some (selectedNumber st).
Proof.
  cbv zeta.
  assert (Hg : forall g', write (grid st) row col (selectedNumber st) = Done g' ->
                          cell g' row col = Some (selectedNumber st)).
  { intros g' W. rewrite (cell_write _ _ _ _ _ row col W).
    now rewrite !Nat.eqb_refl. }
  unfold run, handleCellClick, bind, lift, ret, emit, setGrid, setErrors,
    setCorrectCells, setSelectedCell, update.
  cbv beta.
  destruct (read (initialGrid st) row col) as [x|]; [|cbn; tauto].
  destruct (negb (strict_eq x 0) || over); [cbn; tauto|].
  destruct (write (grid st) row col (selectedNumber st)) as [newGrid|];
    [|cbn; tauto].
  specialize (Hg newGrid eq_refl).
  destruct (negb (selectedNumber st =? 0)%Z);
    [destruct (isValidMove newGrid row col (selectedNumber st)) as [[|]|];
     [ | | cbn; tauto] |];
    cbn [negb fst snd pending sent].
  all: (destruct (write (errors st) row col _) as [newErrors|];
        [|cbn; tauto]).
  all: (destruct (write (correctCells st) row col _) as [newCorrect|];
        [|cbn; tauto]).
  all: destruct (isSolved newGrid) as [[|]|]; cbn;
    repeat match goal with
           | |- context [if ?b then _ else _] => destruct b
           end; cbn; tauto.
Qed.

Lemma offered_number (c : Component) (number : Z) :
  offered c (NumberSelect number) = true -> (1 <= number <= 9)%Z.
Proof.
  simpl. rewrite !orb_true_iff, !Z.eqb_eq. lia.
Qed.

Lemma ui_selected_number (es : list Event) (c : Component) :
  (1 <= selectedNumber (state c) <= 9)%Z ->
  offered_all c es = true ->
  (1 <= selectedNumber (state (fst (dispatch_all c es))) <= 9)%Z.
Proof.
  revert c. induction es as [|e es IH]; intros c Hsel Hoff; simpl in *.
  - exact Hsel.
  - apply andb_true_iff in Hoff. destruct Hoff as [He Hrest].
    assert (H1 : (1 <= selectedNumber (state (fst (dispatch c e))) <= 9)%Z).
    { destruct c as [p st]. destruct e as [row col | number | p'];
        cbn [dispatch fst state props] in *.
      - destruct (click_frame st (gameOver p) row col) as (_ & -> & _).
        exact Hsel.
      - now apply (offered_number (mkComponent p st)).
      - destruct (Difficulty_eqb (difficulty p') (difficulty p)); exact Hsel. }
    destruct (dispatch c e) as [c' sigs]. cbn [fst] in *.
    specialize (IH c' H1 Hrest).
    destruct (dispatch_all c' es) as [c'' log]. exact IH.
Qed.

(** X11.  However the rendered controls are used (cells clicked, picker buttons
    pressed, props changed by the parent), the selected number stays one of
    1..9: the handler's test [selectedNumber !== 0] never fails and no
    placement writes 0. *)
Theorem selected_number_stays_a_digit (p : Props) (es : list Event) :
  offered_all (mount p) es = true ->
  (1 <= selectedNumber (state (fst (dispatch_all (mount p) es))) <= 9)%Z.
Proof.
  intro H. apply ui_selected_number; [|assumption]. simpl. lia.
Qed.

Lemma selected_number_stays_a_digit_witness :
  let es := [CellClick 0 2; NumberSelect 9; CellClick 8 0;
             NewProps (mkProps hard false); CellClick 0 0] in
  offered_all (mount (mkProps easy false)) es = true /\
  (1 <= selectedNumber (state (fst (dispatch_all (mount (mkProps easy false)) es)))
   <= 9)%Z.
Proof.
  cbv zeta. split; [reflexivity|].
  apply (selected_number_stays_a_digit (mkProps easy false)
           [CellClick 0 2; NumberSelect 9; CellClick 8 0;
            NewProps (mkProps hard false); CellClick 0 0]).
  reflexivity.
Defined.

(** X12.  In a session driven through the rendered controls a click never turns
    a cell that holds a digit back into an empty one: an entry can be
    replaced by another digit, not removed. *)
Theorem entries_cannot_be_cleared
    (p : Props) (es : list Event) (row col r k : nat) (v : Z) :
  offered_all (mount p) es = true ->
  let c := fst (dispatch_all (mount p) es) in
  let c' := fst (dispatch c (CellClick row col)) in
  cell (grid (state c)) r k = Some v -> v <> 0%Z ->
  exists v', cell (grid (state c')) r k = Some v' /\ v' <> 0%Z.
Proof.
  intros Hoff. cbv zeta. intros Hv Hne.
  pose proof (ui_selected_number es (mount p)
                ltac:(simpl; lia) Hoff) as Hsel.
  destruct (fst (dispatch_all (mount p) es)) as [q st].
  cbn [dispatch fst state props] in *.
  destruct (Nat.eq_dec r row) as [->|Hr];
    [destruct (Nat.eq_dec k col) as [->|Hk]|].
  - destruct (click_target_value st (gameOver q) row col) as [E|E];
      cbv zeta in E; rewrite E.
    + eauto.
    + exists (selectedNumber st). split; [reflexivity | lia].
  - destruct (click_frame st (gameOver q) row col) as (_ & _ & _ & H).
    destruct (H row k (or_intror Hk)) as (-> & _). eauto.
  - destruct (click_frame st (gameOver q) row col) as (_ & _ & _ & H).
    destruct (H r k (or_introl Hr)) as (-> & _). eauto.
Qed.

Lemma entries_cannot_be_cleared_witness :
  let es := [NumberSelect 4; CellClick 0 2; NumberSelect 5] in
  let c := fst (dispatch_all (mount (mkProps easy false)) es) in
  let c' := fst (dispatch c (CellClick 0 2)) in
  offered_all (mount (mkProps easy false)) es = true /\
  cell (grid (state c)) 0 2 = Some 4%Z /\ 4%Z <> 0%Z /\
  exists v', cell (grid (state c')) 0 2 = Some v' /\ v' <> 0%Z.
Proof.
  cbv zeta. split; [reflexivity|]. split; [reflexivity|].
  split; [discriminate|].
  apply (entries_cannot_be_cleared (mkProps easy false)
           [NumberSelect 4; CellClick 0 2; NumberSelect 5] 0 2 0 2 4);
    [reflexivity | reflexivity | discriminate].
Defined.

(** Outside the rendered controls the handler does clear a cell: with 0 as
    the selected number the test is skipped, 0 is written and the cell is
    flagged correct. *)
Example zero_selected_clears_a_cell :
  let c := fst (play (mount (mkProps easy false)) [(0, 2, 4%Z)]) in
  let out := place c (0, 2, 0%Z) in
  cell (grid (state c)) 0 2 = Some 4%Z /\
  cell (grid (state (fst out))) 0 2 = Some 0%Z /\
  cell (correctCells (state (fst out))) 0 2 = Some true /\
  snd out = [ToastSuccess 0].
Proof. vm_compute. repeat split. Qed.

(** ** New props *)

(** X13.  New props never send a signal.  When the difficulty is the same (only
    [gameOver] changed) the state is untouched.  When the difficulty
    changes, the grid, the initial grid and both flag grids become those
    of a freshly mounted component of the new difficulty, while the
    selected number, the selected cell and the highlighted number are
    kept. *)
Theorem new_props_reload_or_keep (c : Component) (p' : Props) :
  let out := dispatch c (NewProps p') in
  snd out = [] /\ props (fst out) = p' /\
  (difficulty p' = difficulty (props c) -> state (fst out) = state c) /\
  (difficulty p' <> difficulty (props c) ->
   grid (state (fst out)) = grid (state (mount p')) /\
   initialGrid (state (fst out)) = initialGrid (state (mount p')) /\
   errors (state (fst out)) = errors (state (mount p')) /\
   correctCells (state (fst out)) = correctCells (state (mount p')) /\
   selectedNumber (state (fst out)) = selectedNumber (state c) /\
   selectedCell (state (fst out)) = selectedCell (state c) /\
   highlightedNumber (state (fst out)) = highlightedNumber (state c)).
Proof.
  cbv zeta. destruct c as [p st]. cbn [dispatch props state].
  destruct (Difficulty_eqb (difficulty p') (difficulty p)) eqn:E;
    cbn [fst snd props state].
  - split; [reflexivity|]. split; [reflexivity|]. split; [reflexivity|].
    intro Hne. exfalso. apply Hne.
    destruct (difficulty p'), (difficulty p); try discriminate; reflexivity.
  - split; [reflexivity|]. split; [reflexivity|]. split.
    + intro Heq. rewrite Heq in E.
      destruct (difficulty p); discriminate.
    + intros _. repeat split.
Qed.

(** After a change of difficulty the selection ring can sit on a prefilled
    cell: row 0, column 3 is empty in the easy puzzle and holds 6 in the
    medium one. *)
Lemma new_props_reload_or_keep_witness :
  let c := fst (dispatch_all (mount (mkProps easy false))
                  [NumberSelect 4; CellClick 0 3]) in
  let kept := dispatch c (NewProps (mkProps easy true)) in
  let changed := dispatch c (NewProps (mkProps medium false)) in
  difficulty (mkProps easy true) = difficulty (props c) /\
  difficulty (mkProps medium false) <> difficulty (props c) /\
  state (fst kept) = state c /\
  grid (state (fst changed)) = grid (state (mount (mkProps medium false))) /\
  selectedCell (state (fst changed)) = Some (0, 3) /\
  cell (initialGrid (state (fst changed))) 0 3 = Some 6%Z.
Proof.
  cbv zeta.
  pose proof (new_props_reload_or_keep
    (fst (dispatch_all (mount (mkProps easy false))
            [NumberSelect 4; CellClick 0 3]))) as H.
  split; [reflexivity|]. split; [discriminate|].
  split; [apply (H (mkProps easy true)); reflexivity|].
  split; [apply (H (mkProps medium false)); discriminate|].
  split; reflexivity.
Defined.

(** ** Rendering *)

(** X14.  On the 9x9 board the thick borders drawn by [getBorderClasses] are the
    edges of the boxes that [isValidMove] scans: a cell gets the thick top
    border exactly when it is not in row 0 and the cell above starts its
    box scan at another row ([row - row % 3] differs), the thick left
    border likewise for columns; the thick bottom and right borders are
    given to row 8 and column 8 only. *)
Theorem borders_follow_boxes (row col : nat) :
  row < 9 -> col < 9 ->
  let classes := getBorderClasses row col in
  contains " border-t-2 border-t-foreground" classes
    = negb (row =? 0)
      && negb (row - row mod 3 =? (row - 1) - (row - 1) mod 3) /\
  contains " border-l-2 border-l-foreground" classes
    = negb (col =? 0)
      && negb (col - col mod 3 =? (col - 1) - (col - 1) mod 3) /\
  contains " border-b-2 border-b-foreground" classes = (row =? 8) /\
  contains " border-r-2 border-r-foreground" classes = (col =? 8).
Proof.
  intros Hrow Hcol.
  do 9 (destruct row as [|row]; [
    do 9 (destruct col as [|col]; [vm_compute; repeat split|]); lia |]).
  lia.
Qed.

Lemma borders_follow_boxes_witness :
  3 < 9 /\ 8 < 9 /\
  getBorderClasses 3 8
    = " border-t-2 border-t-foreground border-r-2 border-r-foreground"%string /\
  let classes := getBorderClasses 3 8 in
  contains " border-t-2 border-t-foreground" classes
    = negb (3 =? 0) && negb (3 - 3 mod 3 =? (3 - 1) - (3 - 1) mod 3) /\
  contains " border-l-2 border-l-foreground" classes
    = negb (8 =? 0) && negb (8 - 8 mod 3 =? (8 - 1) - (8 - 1) mod 3) /\
  contains " border-b-2 border-b-foreground" classes = (3 =? 8) /\
  contains " border-r-2 border-r-foreground" classes = (8 =? 8).
Proof.
  split; [lia|]. split; [lia|]. split; [reflexivity|].
  apply (borders_follow_boxes 3 8); lia.
Defined.



(** X16.  At any moment of a session, a prefilled cell of the board is rendered
    without an exception and without a status class: its class name is the
    base classes, the prefilled classes, the class of its number, then the
    ring when it is the selected cell and the game-over classes when the
    game is over. *)
Theorem prefilled_cell_class_name
    (p : Props) (es : list Event) (over : bool) (row col : nat) (v : Z) :
  let st := state (fst (dispatch_all (mount p) es)) in
  cell (initialGrid st) row col = Some v -> v <> 0%Z ->
  getCellClassName st over row col
  = Done (let className :=
            (("sudoku-cell cursor-pointer text-black"
              ++ " prefilled cursor-not-allowed font-bold")
             ++ (" number-" ++ show_cell (Some v)))%string in
          let className :=
            match selectedCell st with
            | Some (r, c) =>
                if (r =? row) && (c =? col)
                then (className ++ " ring-2 ring-primary")%string
                else className
            | None => className
            end in
          if over
          then (className ++ " cursor-not-allowed opacity-50")%string
          else className).
Proof.
  cbv zeta. intros Hv Hne.
  destruct (dispatch_all_preserves es (mount p) (session_invariant_mount p))
    as (Hb & _ & Hk).
  set (st := state (fst (dispatch_all (mount p) es))) in *.
  destruct Hb as (Hg & Hi & He & Hc).
  destruct (editable_in_range st row col v Hi Hv) as [Hrow Hcol].
  pose proof (is_9x9_length _ Hg) as Lg.
  pose proof (is_9x9_length _ Hi) as Li.
  unfold getCellClassName, result_bind.
  rewrite !read_cell by lia.
  rewrite Hv, (Hk row col v Hv Hne).
  apply Z.eqb_neq in Hne. cbn [strict_eq]. rewrite Hne.
  cbn [negb andb]. reflexivity.
Qed.

Lemma prefilled_cell_class_name_witness :
  let st := state (fst (dispatch_all (mount (mkProps easy false))
                          [CellClick 0 3; NewProps (mkProps medium true)])) in
  cell (initialGrid st) 0 3 = Some 6%Z /\ 6%Z <> 0%Z /\
  getCellClassName st true 0 3
  = Done "sudoku-cell cursor-pointer text-black prefilled cursor-not-allowed font-bold number-6 ring-2 ring-primary cursor-not-allowed opacity-50"%string.
Proof.
  cbv zeta. split; [reflexivity|]. split; [discriminate|].
  rewrite (prefilled_cell_class_name (mkProps easy false)
             [CellClick 0 3; NewProps (mkProps medium true)] true 0 3 6);
    [reflexivity | reflexivity | discriminate].
Defined.

(** X17.  A prefilled cell is painted in the colour of the picker button of its
    digit: the colour table of the cells and the one of the picker agree
    on every number. *)
Theorem cell_colour_is_picker_colour (n : Z) :
  cellBackground (Some n) = pickerBackground n.
Proof.
  unfold cellBackground, pickerBackground, strict_eq.
  destruct (Z.eqb_spec n 0) as [->|Hn]; reflexivity.
Qed.
